(** * Projection engine of the equity calculator: a shallow embedding

    Sources embedded here:
    - src/src/utils/taxCalculations.ts (tax engine and RSU vesting)
    - src/src/utils/investmentCalculations.ts (investment roll, CAGR)
    - src/unnamed/part_001 (pension roll)
    - src/unnamed/part_002 (salary, expense and yearly financial projections)

    JavaScript numbers are modelled as exact rationals [Q]; rounding of
    doubles is not modelled.  Each TypeScript interface becomes a record in
    a module of the same name, so that [TaxResult.totalTax r] reads like
    [r.totalTax] in the source. *)

From Stdlib Require Import QArith Qpower Qminmax Lqa Lia ZArith List Bool Ascii String.
Import ListNotations.
Open Scope Q_scope.

(** ** JavaScript primitives on numbers *)

(** [a < b] *)
Definition Qltb (a b : Q) : bool := negb (Qle_bool b a).

(** [Math.max(a, b)] and [Math.min(a, b)] (no NaN among rationals). *)
Definition Math_max (a b : Q) : Q := if Qle_bool a b then b else a.
Definition Math_min (a b : Q) : Q := if Qle_bool a b then a else b.

(** ** Data model (src/src/types/financial.ts) *)

Module TaxBracket.
Record t := mk {
  lowerBound : Q;
  upperBound : option Q; (* [null] for the highest bracket *)
  rate : Q
}.
End TaxBracket.

Module SocialContribution.
Record t := mk {
  name : string;
  rate : Q;
  maxIncome : Q
}.
End SocialContribution.

Module TaxConfig.
Record t := mk {
  year : Z;
  incomeTaxBrackets : list TaxBracket.t;
  socialContributions : list SocialContribution.t
}.
End TaxConfig.

Module TaxResult.
Record t := mk {
  year : Z;
  grossIncome : Q;
  taxableIncome : Q;
  incomeTax : Q;
  socialContributions : Q;
  pensionContributions : Q;
  generalTaxCredit : Q;
  labourTaxCredit : Q;
  totalTaxBeforeCredits : Q;
  totalTax : Q;
  netIncome : Q;
  effectiveTaxRate : Q;
  marginalTaxRate : Q
}.
End TaxResult.

(** ** Tax engine (src/src/utils/taxCalculations.ts) *)

Definition NETHERLANDS_TAX_CONFIG_2025 : TaxConfig.t :=
  TaxConfig.mk 2025
    [ TaxBracket.mk 0 (Some 35472) 0.0942;
      TaxBracket.mk 35472 (Some 69399) 0.3707;
      TaxBracket.mk 69399 None 0.495 ]
    [ SocialContribution.mk "Social Security" 0.2765 35472 ].

Definition GENERAL_TAX_CREDIT_2025 : Q := 2888.
Definition LABOUR_TAX_CREDIT_MAX_2025 : Q := 4260.
Definition LABOUR_TAX_CREDIT_THRESHOLD_LOW : Q := 10351.
Definition LABOUR_TAX_CREDIT_THRESHOLD_MID : Q := 22357.
Definition LABOUR_TAX_CREDIT_THRESHOLD_HIGH : Q := 36650.
Definition LABOUR_TAX_CREDIT_PHASEOUT_END : Q := 109347.

Definition calculateLabourTaxCredit (grossIncome : Q) : Q :=
  if Qle_bool grossIncome LABOUR_TAX_CREDIT_THRESHOLD_LOW then
    grossIncome * 0.04541
  else if Qle_bool grossIncome LABOUR_TAX_CREDIT_THRESHOLD_MID then
    let base := 470 in
    let additional := (grossIncome - LABOUR_TAX_CREDIT_THRESHOLD_LOW) * 0.28461 in
    base + additional
  else if Qle_bool grossIncome LABOUR_TAX_CREDIT_THRESHOLD_HIGH then
    let base := 3887 in
    let additional := (grossIncome - LABOUR_TAX_CREDIT_THRESHOLD_MID) * 0.02610 in
    base + additional
  else if Qle_bool grossIncome LABOUR_TAX_CREDIT_PHASEOUT_END then
    let reduction := (grossIncome - LABOUR_TAX_CREDIT_THRESHOLD_HIGH) * 0.05860 in
    Math_max 0 (LABOUR_TAX_CREDIT_MAX_2025 - reduction)
  else 0.

Definition calculateGeneralTaxCredit (taxableIncome : Q) : Q :=
  let phaseoutStart := 21318 in
  let phaseoutEnd := 69399 in
  if Qle_bool taxableIncome phaseoutStart then GENERAL_TAX_CREDIT_2025
  else if Qle_bool taxableIncome phaseoutEnd then
    let reduction := (taxableIncome - phaseoutStart) * 0.06007 in
    Math_max 0 (GENERAL_TAX_CREDIT_2025 - reduction)
  else 0.

(** [min(x, upperBound ?? Infinity)] *)
Definition min_upper (x : Q) (ub : option Q) : Q :=
  match ub with Some u => Math_min x u | None => x end.

(** The [for (const bracket of brackets)] loop, accumulator [tax]. *)
Fixpoint incomeTaxLoop (taxableIncome : Q) (brackets : list TaxBracket.t) (tax : Q) : Q :=
  match brackets with
  | [] => tax
  | b :: rest =>
      let tax' :=
        if Qltb (TaxBracket.lowerBound b) taxableIncome then
          let incomeInBracket :=
            min_upper taxableIncome (TaxBracket.upperBound b) - TaxBracket.lowerBound b in
          tax + incomeInBracket * TaxBracket.rate b
        else tax in
      incomeTaxLoop taxableIncome rest tax'
  end.

Definition calculateIncomeTax (taxableIncome : Q) (brackets : list TaxBracket.t) : Q :=
  incomeTaxLoop taxableIncome brackets 0.

Fixpoint socialLoop (taxableIncome : Q) (cs : list SocialContribution.t) (total : Q) : Q :=
  match cs with
  | [] => total
  | c :: rest =>
      let incomeSubjectToContribution :=
        Math_min taxableIncome (SocialContribution.maxIncome c) in
      socialLoop taxableIncome rest
        (total + incomeSubjectToContribution * SocialContribution.rate c)
  end.

Definition calculateSocialContributions (taxableIncome : Q)
    (contributions : list SocialContribution.t) : Q :=
  socialLoop taxableIncome contributions 0.

(** First loop of [calculateMarginalTaxRate], with its [break]. *)
Fixpoint bracketRateLoop (taxableIncome : Q) (brackets : list TaxBracket.t)
    (incomeTaxRate : Q) : Q :=
  match brackets with
  | [] => incomeTaxRate
  | b :: rest =>
      let below_upper :=
        match TaxBracket.upperBound b with
        | Some u => Qltb taxableIncome u
        | None => true
        end in
      if Qle_bool (TaxBracket.lowerBound b) taxableIncome && below_upper then
        TaxBracket.rate b
      else
        let r := match TaxBracket.upperBound b with
                 | None => TaxBracket.rate b
                 | Some _ => incomeTaxRate
                 end in
        bracketRateLoop taxableIncome rest r
  end.

Fixpoint socialRateLoop (taxableIncome : Q) (cs : list SocialContribution.t)
    (acc : Q) : Q :=
  match cs with
  | [] => acc
  | c :: rest =>
      socialRateLoop taxableIncome rest
        (if Qltb taxableIncome (SocialContribution.maxIncome c)
         then acc + SocialContribution.rate c else acc)
  end.

Definition calculateMarginalTaxRate (taxableIncome : Q) (brackets : list TaxBracket.t)
    (socialContributions : list SocialContribution.t) : Q :=
  bracketRateLoop taxableIncome brackets 0
  + socialRateLoop taxableIncome socialContributions 0.

(** [calculateTax]; the optional [pensionContributionsOverride] is an
    [option Q] ([None] for [undefined]).  The 30% ruling keeps 70% of the
    income taxable. *)
Definition calculateTax (grossIncome pensionPercentage : Q) (has30PercentRuling : bool)
    (year : Z) (taxConfig : TaxConfig.t) (pensionContributionsOverride : option Q)
    : TaxResult.t :=
  let pensionContributions :=
    match pensionContributionsOverride with
    | Some p => p
    | None => grossIncome * pensionPercentage
    end in
  let incomeAfterPension := grossIncome - pensionContributions in
  let taxableIncome :=
    if has30PercentRuling then incomeAfterPension * 0.70 else incomeAfterPension in
  let incomeTax := calculateIncomeTax taxableIncome (TaxConfig.incomeTaxBrackets taxConfig) in
  let socialContributions :=
    calculateSocialContributions taxableIncome (TaxConfig.socialContributions taxConfig) in
  let generalTaxCredit := calculateGeneralTaxCredit taxableIncome in
  let labourTaxCredit := calculateLabourTaxCredit grossIncome in
  let totalTaxBeforeCredits := incomeTax + socialContributions + pensionContributions in
  let taxAfterCredits :=
    Math_max pensionContributions
      (incomeTax + socialContributions - generalTaxCredit - labourTaxCredit) in
  let totalTax := taxAfterCredits + pensionContributions in
  let netIncome := grossIncome - totalTax in
  let effectiveTaxRate := totalTax / grossIncome in
  let marginalTaxRate :=
    calculateMarginalTaxRate taxableIncome (TaxConfig.incomeTaxBrackets taxConfig)
      (TaxConfig.socialContributions taxConfig) in
  TaxResult.mk year grossIncome taxableIncome incomeTax socialContributions
    pensionContributions generalTaxCredit labourTaxCredit totalTaxBeforeCredits
    totalTax netIncome effectiveTaxRate marginalTaxRate.

(** [calculateRSUTax]: tax on salary plus RSU, marginal rate applied to the RSU. *)
Record RSUTaxResult := mkRSUTax {
  rsu_marginalTaxRate : Q;
  taxOnRSU : Q;
  rsu_netRSUValue : Q
}.

Definition calculateRSUTax (salaryGrossIncome rsuGrossValue pensionPercentage : Q)
    (has30PercentRuling : bool) (year : Z) (taxConfig : TaxConfig.t) : RSUTaxResult :=
  let totalIncome := salaryGrossIncome + rsuGrossValue in
  let taxResult := calculateTax totalIncome pensionPercentage has30PercentRuling year
                     taxConfig None in
  let marginalTaxRate := TaxResult.marginalTaxRate taxResult in
  let taxOnRSU := rsuGrossValue * marginalTaxRate in
  let netRSUValue := rsuGrossValue - taxOnRSU in
  mkRSUTax marginalTaxRate taxOnRSU netRSUValue.

(** ** RSU vesting (src/src/utils/taxCalculations.ts, second part) *)

Module RSUGrant.
Record t := mk {
  id : string;
  grantYear : Z;
  grantType : string;
  grantValueEur : Q;
  sharePriceEur : Q;
  grantShares : Q;
  vestingYears : Z;
  vestingPercentagePerYear : Q
}.
End RSUGrant.

Module RSUVestingYear.
Record t := mk {
  year : Z;
  sharesVested : Q;
  grantPriceAvg : Q;
  vestingPriceEur : Q;
  grossRSUValue : Q;
  stockAppreciation : Q;
  appreciationPercentage : Q;
  marginalTaxRate : Q;
  taxPaid : Q;
  netRSUValue : Q
}.
End RSUVestingYear.

(** A JavaScript [Map<number, number>] keyed by year. *)
Definition NumMap := Z -> option Q.
Definition map_empty : NumMap := fun _ => None.
Definition map_set (m : NumMap) (k : Z) (v : Q) : NumMap :=
  fun k' => if Z.eqb k' k then Some v else m k'.
(** [m.get(k) || 0] *)
Definition map_get_or0 (m : NumMap) (k : Z) : Q :=
  match m k with Some v => v | None => 0 end.

Definition calculateSharesVestingInYear (grant : RSUGrant.t) (year : Z) : Q :=
  let yearsFromGrant := (year - RSUGrant.grantYear grant)%Z in
  if (yearsFromGrant <? 0)%Z || (RSUGrant.vestingYears grant <=? yearsFromGrant)%Z then 0
  else
    let sharesPerYear := RSUGrant.grantShares grant * RSUGrant.vestingPercentagePerYear grant in
    sharesPerYear.

(** The inner [for (const grant of grants)] loop: accumulates
    [(totalSharesVested, weightedGrantPrice)]. *)
Definition vestingTotals (grants : list RSUGrant.t) (year : Z) : Q * Q :=
  fold_left
    (fun acc grant =>
       let '(totalSharesVested, weightedGrantPrice) := acc in
       let sharesVesting := calculateSharesVestingInYear grant year in
       if Qltb 0 sharesVesting then
         (totalSharesVested + sharesVesting,
          weightedGrantPrice + sharesVesting * RSUGrant.sharePriceEur grant)
       else acc)
    grants (0, 0).

(** One iteration [i] of the loop of [calculateRSUVestingByYear]. *)
Definition rsuVestingYearAt (grants : list RSUGrant.t) (startYear : Z)
    (salaryByYear : NumMap) (sharePriceGrowthRate currentStockPrice pensionPercentage : Q)
    (has30PercentRuling : bool)
    (taxResults taxResultsWithoutRSU : option (list TaxResult.t)) (i : nat)
    : RSUVestingYear.t :=
  let year := (startYear + Z.of_nat i)%Z in
  let baseSharePrice := currentStockPrice in
  let '(totalSharesVested, weightedGrantPrice) := vestingTotals grants year in
  let avgGrantPrice :=
    if Qltb 0 totalSharesVested then weightedGrantPrice / totalSharesVested
    else baseSharePrice in
  let yearsFromBase := (year - startYear)%Z in
  let vestingPriceEur := baseSharePrice * Qpower (1 + sharePriceGrowthRate) yearsFromBase in
  let grossRSUValue := totalSharesVested * vestingPriceEur in
  let stockAppreciation := totalSharesVested * (vestingPriceEur - avgGrantPrice) in
  let appreciationPercentage :=
    if Qltb 0 avgGrantPrice then (vestingPriceEur - avgGrantPrice) / avgGrantPrice else 0 in
  let salaryGrossIncome := map_get_or0 salaryByYear year in
  let exact :=
    match taxResults, taxResultsWithoutRSU with
    | Some tr, Some trw =>
        match nth_error tr i, nth_error trw i with
        | Some r, Some rw => Some (r, rw)
        | _, _ => None
        end
    | _, _ => None
    end in
  let '(marginalTaxRate, taxPaid, netRSUValue) :=
    match exact with
    | Some (r, rw) =>
        let taxWithRSU := TaxResult.totalTax r in
        let taxWithoutRSU := TaxResult.totalTax rw in
        let taxPaid := taxWithRSU - taxWithoutRSU in
        let netRSUValue := grossRSUValue - taxPaid in
        let marginalTaxRate := if Qltb 0 grossRSUValue then taxPaid / grossRSUValue else 0 in
        (marginalTaxRate, taxPaid, netRSUValue)
    | None =>
        let rsuTax := calculateRSUTax salaryGrossIncome grossRSUValue pensionPercentage
                        has30PercentRuling year NETHERLANDS_TAX_CONFIG_2025 in
        (rsu_marginalTaxRate rsuTax, taxOnRSU rsuTax, rsu_netRSUValue rsuTax)
    end in
  RSUVestingYear.mk year totalSharesVested avgGrantPrice vestingPriceEur grossRSUValue
    stockAppreciation appreciationPercentage marginalTaxRate taxPaid netRSUValue.

Definition calculateRSUVestingByYear (grants : list RSUGrant.t) (startYear : Z)
    (projectionYears : nat) (salaryByYear : NumMap)
    (sharePriceGrowthRate currentStockPrice pensionPercentage : Q)
    (has30PercentRuling : bool)
    (taxResults taxResultsWithoutRSU : option (list TaxResult.t))
    : list RSUVestingYear.t :=
  map (rsuVestingYearAt grants startYear salaryByYear sharePriceGrowthRate
         currentStockPrice pensionPercentage has30PercentRuling
         taxResults taxResultsWithoutRSU)
      (seq 0 projectionYears).

(** ** Settings *)

Module ExpenseCategory.
Record t := mk { id : string; name : string; monthlyAmount : Q }.
End ExpenseCategory.

Module IncomeSettings.
Record t := mk {
  baseSalary : Q;
  bonusPercentage : Q;
  holidayAllowancePercentage : Q;
  pensionPercentage : Q;
  employerPensionPercentage : Q;
  healthcareBenefitMonthly : Q;
  has30PercentRuling : bool;
  salaryGrowthRate : Q
}.
End IncomeSettings.

Module InvestmentSettings.
Record t := mk {
  startingNetWorth : Q;
  startingPensionBalance : Q;
  annualReturnRate : Q;
  pensionReturnRate : Q;
  sharePriceGrowthRate : Q;
  currentStockPrice : Q;
  bonusInvestmentPercentage : Q;
  holidayAllowanceInvestmentPercentage : Q
}.
End InvestmentSettings.

Module PlanningSettings.
Record t := mk {
  startYear : Z;
  projectionYears : nat;
  expenseInflationRate : Q
}.
End PlanningSettings.

Module YearlyFinancial.
Record t := mk {
  year : Z;
  grossIncome : Q;
  rsuGrossValue : Q;
  totalGrossIncome : Q;
  netIncome : Q;
  netRSUValue : Q;
  totalNetIncome : Q;
  employerPensionContribution : Q;
  totalExpenses : Q;
  netSavings : Q;
  savingsRate : Q;
  effectiveTaxRate : Q
}.
End YearlyFinancial.

(** ** Salary, expenses and yearly financials (src/unnamed/part_002) *)

Definition calculateSalaryByYear (baseSalary salaryGrowthRate : Q) (startYear : Z)
    (projectionYears : nat) : NumMap :=
  fold_left
    (fun m i =>
       let year := (startYear + Z.of_nat i)%Z in
       let salary := baseSalary * Qpower (1 + salaryGrowthRate) (Z.of_nat i) in
       map_set m year salary)
    (seq 0 projectionYears) map_empty.

Definition calculateYearlyExpenses (expenseCategories : list ExpenseCategory.t)
    (expenseInflationRate : Q) (startYear : Z) (projectionYears : nat) : NumMap :=
  let baseMonthlyExpenses :=
    fold_left (fun total c => total + ExpenseCategory.monthlyAmount c) expenseCategories 0 in
  let baseAnnualExpenses := baseMonthlyExpenses * 12 in
  fold_left
    (fun m i =>
       let year := (startYear + Z.of_nat i)%Z in
       let yearlyExpenses := baseAnnualExpenses * Qpower (1 + expenseInflationRate) (Z.of_nat i) in
       map_set m year yearlyExpenses)
    (seq 0 projectionYears) map_empty.

(** [xs[i]?.field || 0] *)
Definition field_or0 {A} (f : A -> Q) (xs : list A) (i : nat) : Q :=
  match nth_error xs i with Some x => f x | None => 0 end.

(** One iteration [i] of the loop of [calculateFinancialProjections]. *)
Definition yearlyFinancialAt (incomeSettings : IncomeSettings.t)
    (planningSettings : PlanningSettings.t) (salaryByYear expensesByYear : NumMap)
    (taxResults : list TaxResult.t) (rsuVestingByYear : list RSUVestingYear.t)
    (taxResultsWithoutRSU : option (list TaxResult.t)) (i : nat) : YearlyFinancial.t :=
  let year := (PlanningSettings.startYear planningSettings + Z.of_nat i)%Z in
  let baseSalaryYear := map_get_or0 salaryByYear year in
  let grossIncome := baseSalaryYear * (1 + IncomeSettings.holidayAllowancePercentage incomeSettings
                                         + IncomeSettings.bonusPercentage incomeSettings) in
  let employerPensionContribution :=
    baseSalaryYear * IncomeSettings.employerPensionPercentage incomeSettings in
  let rsuGrossValue := field_or0 RSUVestingYear.grossRSUValue rsuVestingByYear i in
  let netRSUValue := field_or0 RSUVestingYear.netRSUValue rsuVestingByYear i in
  let salaryOnly :=
    match taxResultsWithoutRSU with
    | Some trw => nth_error trw i
    | None => None
    end in
  let netIncome :=
    match salaryOnly with
    | Some rw => TaxResult.netIncome rw
    | None =>
        let totalNetIncome := field_or0 TaxResult.netIncome taxResults i in
        let totalGrossIncome := grossIncome + rsuGrossValue in
        let salaryPortion :=
          if Qltb 0 totalGrossIncome then grossIncome / totalGrossIncome else 1 in
        totalNetIncome * salaryPortion
    end in
  let healthcareBenefit := IncomeSettings.healthcareBenefitMonthly incomeSettings * 12 in
  let netIncomeWithBenefits := netIncome + healthcareBenefit in
  let effectiveTaxRate := field_or0 TaxResult.effectiveTaxRate taxResults i in
  let totalGrossIncomeCalc := grossIncome + rsuGrossValue in
  let totalNetIncomeCalc := netIncomeWithBenefits + netRSUValue in
  let totalExpenses := map_get_or0 expensesByYear year in
  let netSavings := totalNetIncomeCalc - totalExpenses + employerPensionContribution in
  let savingsRate :=
    if Qltb 0 totalNetIncomeCalc
    then netSavings / (totalNetIncomeCalc + employerPensionContribution) else 0 in
  YearlyFinancial.mk year grossIncome rsuGrossValue totalGrossIncomeCalc netIncomeWithBenefits
    netRSUValue totalNetIncomeCalc employerPensionContribution totalExpenses netSavings
    savingsRate effectiveTaxRate.

Definition calculateFinancialProjections (incomeSettings : IncomeSettings.t)
    (planningSettings : PlanningSettings.t) (expenseCategories : list ExpenseCategory.t)
    (taxResults : list TaxResult.t) (rsuVestingByYear : list RSUVestingYear.t)
    (taxResultsWithoutRSU : option (list TaxResult.t)) : list YearlyFinancial.t :=
  let startYear := PlanningSettings.startYear planningSettings in
  let projectionYears := PlanningSettings.projectionYears planningSettings in
  let salaryByYear :=
    calculateSalaryByYear (IncomeSettings.baseSalary incomeSettings)
      (IncomeSettings.salaryGrowthRate incomeSettings) startYear projectionYears in
  let expensesByYear :=
    calculateYearlyExpenses expenseCategories
      (PlanningSettings.expenseInflationRate planningSettings) startYear projectionYears in
  map (yearlyFinancialAt incomeSettings planningSettings salaryByYear expensesByYear
         taxResults rsuVestingByYear taxResultsWithoutRSU)
      (seq 0 projectionYears).

(** ** Investment and pension rolls *)

Module YearlyInvestment.
Record t := mk {
  year : Z;
  openingBalance : Q;
  contributions : Q;
  monthlySavingsContributions : Q;
  holidayAllowanceContributions : Q;
  bonusContributions : Q;
  cashContributions : Q;
  rsuContributions : Q;
  investmentGrowth : Q;
  closingBalance : Q;
  cumulativeROI : Q
}.
End YearlyInvestment.

Module YearlyPension.
Record t := mk {
  year : Z;
  openingBalance : Q;
  employeeContributions : Q;
  employerContributions : Q;
  pensionGrowth : Q;
  closingBalance : Q
}.
End YearlyPension.

(** Body of iteration [i] of [calculateInvestmentProjections]
    (src/src/utils/investmentCalculations.ts), from [currentBalance]. *)
Definition investmentYear (startingNetWorth annualReturnRate : Q)
    (incomeSettings : IncomeSettings.t) (investmentSettings : InvestmentSettings.t)
    (i : nat) (financial : YearlyFinancial.t) (currentBalance : Q) : YearlyInvestment.t :=
  let year := YearlyFinancial.year financial in
  let openingBalance := currentBalance in
  let baseSalary := IncomeSettings.baseSalary incomeSettings
                    * Qpower (1 + IncomeSettings.salaryGrowthRate incomeSettings) (Z.of_nat i) in
  let bonusGross := baseSalary * IncomeSettings.bonusPercentage incomeSettings in
  let holidayAllowanceGross := baseSalary * IncomeSettings.holidayAllowancePercentage incomeSettings in
  let bonusNet := bonusGross * (1 - YearlyFinancial.effectiveTaxRate financial) in
  let holidayAllowanceNet := holidayAllowanceGross * (1 - YearlyFinancial.effectiveTaxRate financial) in
  let bonusContributions := bonusNet * InvestmentSettings.bonusInvestmentPercentage investmentSettings in
  let holidayAllowanceContributions :=
    holidayAllowanceNet * InvestmentSettings.holidayAllowanceInvestmentPercentage investmentSettings in
  let netSalaryOnly := YearlyFinancial.totalNetIncome financial
                       - YearlyFinancial.netRSUValue financial - bonusNet - holidayAllowanceNet in
  let monthlySavings := netSalaryOnly - YearlyFinancial.totalExpenses financial in
  let monthlySavingsContributions := Math_max 0 monthlySavings in
  let rsuContributions := YearlyFinancial.netRSUValue financial in
  let cashContributions :=
    monthlySavingsContributions + holidayAllowanceContributions + bonusContributions in
  let contributions := monthlySavingsContributions + holidayAllowanceContributions
                       + bonusContributions + rsuContributions in
  let balanceForGrowth := openingBalance + contributions / 2 in
  let investmentGrowth := balanceForGrowth * annualReturnRate in
  let closingBalance := openingBalance + contributions + investmentGrowth in
  let cumulativeROI :=
    if Qltb 0 startingNetWorth
    then (closingBalance - startingNetWorth) / startingNetWorth else 0 in
  YearlyInvestment.mk year openingBalance contributions monthlySavingsContributions
    holidayAllowanceContributions bonusContributions cashContributions rsuContributions
    investmentGrowth closingBalance cumulativeROI.

(** The loop, threading [currentBalance]; [i] is the index of the head. *)
Fixpoint investmentLoop (startingNetWorth annualReturnRate : Q)
    (incomeSettings : IncomeSettings.t) (investmentSettings : InvestmentSettings.t)
    (i : nat) (fs : list YearlyFinancial.t) (currentBalance : Q) : list YearlyInvestment.t :=
  match fs with
  | [] => []
  | financial :: rest =>
      let r := investmentYear startingNetWorth annualReturnRate incomeSettings
                 investmentSettings i financial currentBalance in
      r :: investmentLoop startingNetWorth annualReturnRate incomeSettings investmentSettings
             (S i) rest (YearlyInvestment.closingBalance r)
  end.

Definition calculateInvestmentProjections (startingNetWorth annualReturnRate : Q)
    (yearlyFinancials : list YearlyFinancial.t) (incomeSettings : IncomeSettings.t)
    (investmentSettings : InvestmentSettings.t) : list YearlyInvestment.t :=
  investmentLoop startingNetWorth annualReturnRate incomeSettings investmentSettings
    0 yearlyFinancials startingNetWorth.

(** Body of iteration [i] of [calculatePensionProjections] (src/unnamed/part_001). *)
Definition pensionYear (pensionReturnRate : Q) (financial : YearlyFinancial.t)
    (taxResult : TaxResult.t) (currentBalance : Q) : YearlyPension.t :=
  let year := YearlyFinancial.year financial in
  let openingBalance := currentBalance in
  let employeeContributions := TaxResult.pensionContributions taxResult in
  let employerContributions := YearlyFinancial.employerPensionContribution financial in
  let totalContributions := employeeContributions + employerContributions in
  let balanceForGrowth := openingBalance + totalContributions / 2 in
  let pensionGrowth := balanceForGrowth * pensionReturnRate in
  let closingBalance := openingBalance + totalContributions + pensionGrowth in
  YearlyPension.mk year openingBalance employeeContributions employerContributions
    pensionGrowth closingBalance.

(** The loop; reading [taxResult.pensionContributions] of a missing
    [taxResults[i]] throws a [TypeError], modelled as [None]. *)
Fixpoint pensionLoop (pensionReturnRate : Q) (fs : list YearlyFinancial.t)
    (taxResults : list TaxResult.t) (currentBalance : Q) : option (list YearlyPension.t) :=
  match fs with
  | [] => Some []
  | financial :: rest =>
      match taxResults with
      | [] => None
      | taxResult :: trs =>
          let r := pensionYear pensionReturnRate financial taxResult currentBalance in
          match pensionLoop pensionReturnRate rest trs (YearlyPension.closingBalance r) with
          | Some rs => Some (r :: rs)
          | None => None
          end
      end
  end.

Definition calculatePensionProjections (startingPensionBalance pensionReturnRate : Q)
    (yearlyFinancials : list YearlyFinancial.t) (taxResults : list TaxResult.t)
    : option (list YearlyPension.t) :=
  pensionLoop pensionReturnRate yearlyFinancials taxResults startingPensionBalance.

(** [projectSingleYear] *)
Record SingleYear := mkSingleYear { growth : Q; sy_closingBalance : Q }.

Definition projectSingleYear (openingBalance contribution returnRate : Q) : SingleYear :=
  let balanceForGrowth := openingBalance + contribution / 2 in
  let growth := balanceForGrowth * returnRate in
  let closingBalance := openingBalance + contribution + growth in
  mkSingleYear growth closingBalance.

(** [calculateCAGR], over [Math.pow] given as a parameter: the exponent
    [1 / years] is not an integer in general. *)
Definition calculateCAGR (Math_pow : Q -> Q -> Q) (startingValue endingValue years : Q) : Q :=
  if Qle_bool startingValue 0 || Qle_bool years 0 then 0
  else Math_pow (endingValue / startingValue) (1 / years) - 1.

(** ** The pipeline of [recalculate] (src/src/context/FinancialContext.tsx) *)

Module FinancialData.
Record t := mk {
  incomeSettings : IncomeSettings.t;
  investmentSettings : InvestmentSettings.t;
  planningSettings : PlanningSettings.t;
  expenseCategories : list ExpenseCategory.t;
  rsuGrants : list RSUGrant.t
}.
End FinancialData.

(** [yearlyPension] is [None] where [calculatePensionProjections] throws. *)
Module FinancialProjections.
Record t := mk {
  taxResults : list TaxResult.t;
  rsuVestingByYear : list RSUVestingYear.t;
  yearlyFinancials : list YearlyFinancial.t;
  yearlyInvestments : list YearlyInvestment.t;
  yearlyPension : option (list YearlyPension.t)
}.
End FinancialProjections.

(** Step 3 of [recalculate], year [i]: tax with and without the RSU income,
    both with the pension on base salary passed as override. *)
Definition recalculateTaxesAt (inc : IncomeSettings.t) (startYear : Z) (salaryByYear : NumMap)
    (rsuVestingInitial : list RSUVestingYear.t) (i : nat) : TaxResult.t * TaxResult.t :=
  let year := (startYear + Z.of_nat i)%Z in
  let salary := map_get_or0 salaryByYear year in
  let salaryIncome := salary * (1 + IncomeSettings.holidayAllowancePercentage inc
                                  + IncomeSettings.bonusPercentage inc) in
  let rsuIncome := field_or0 RSUVestingYear.grossRSUValue rsuVestingInitial i in
  let totalGrossIncome := salaryIncome + rsuIncome in
  let pensionAmount := salary * IncomeSettings.pensionPercentage inc in
  let taxResult := calculateTax totalGrossIncome (IncomeSettings.pensionPercentage inc)
                     (IncomeSettings.has30PercentRuling inc) year
                     NETHERLANDS_TAX_CONFIG_2025 (Some pensionAmount) in
  let taxResultWithoutRSU := calculateTax salaryIncome (IncomeSettings.pensionPercentage inc)
                               (IncomeSettings.has30PercentRuling inc) year
                               NETHERLANDS_TAX_CONFIG_2025 (Some pensionAmount) in
  (taxResult, taxResultWithoutRSU).

Definition recalculate (data : FinancialData.t) : FinancialProjections.t :=
  let inc := FinancialData.incomeSettings data in
  let inv := FinancialData.investmentSettings data in
  let plan := FinancialData.planningSettings data in
  let startYear := PlanningSettings.startYear plan in
  let projectionYears := PlanningSettings.projectionYears plan in
  let salaryByYear := calculateSalaryByYear (IncomeSettings.baseSalary inc)
                        (IncomeSettings.salaryGrowthRate inc) startYear projectionYears in
  let rsuVestingInitial :=
    calculateRSUVestingByYear (FinancialData.rsuGrants data) startYear projectionYears
      salaryByYear (InvestmentSettings.sharePriceGrowthRate inv)
      (InvestmentSettings.currentStockPrice inv) (IncomeSettings.pensionPercentage inc)
      (IncomeSettings.has30PercentRuling inc) None None in
  let taxes := map (recalculateTaxesAt inc startYear salaryByYear rsuVestingInitial)
                 (seq 0 projectionYears) in
  let taxResults := map fst taxes in
  let taxResultsWithoutRSU := map snd taxes in
  let rsuVestingByYear :=
    calculateRSUVestingByYear (FinancialData.rsuGrants data) startYear projectionYears
      salaryByYear (InvestmentSettings.sharePriceGrowthRate inv)
      (InvestmentSettings.currentStockPrice inv) (IncomeSettings.pensionPercentage inc)
      (IncomeSettings.has30PercentRuling inc) (Some taxResults) (Some taxResultsWithoutRSU) in
  let yearlyFinancials :=
    calculateFinancialProjections inc plan (FinancialData.expenseCategories data)
      taxResults rsuVestingByYear (Some taxResultsWithoutRSU) in
  let yearlyInvestments :=
    calculateInvestmentProjections (InvestmentSettings.startingNetWorth inv)
      (InvestmentSettings.annualReturnRate inv) yearlyFinancials inc inv in
  let yearlyPension :=
    calculatePensionProjections (InvestmentSettings.startingPensionBalance inv)
      (InvestmentSettings.pensionReturnRate inv) yearlyFinancials taxResults in
  FinancialProjections.mk taxResults rsuVestingByYear yearlyFinancials yearlyInvestments
    yearlyPension.

(** A sample settings snapshot: the default grant of 2024 and a refresher. *)
Definition sampleData : FinancialData.t :=
  FinancialData.mk
    (IncomeSettings.mk 80000 0.10 0.08 0.0338 0.10 150 false 0.03)
    (InvestmentSettings.mk 20000 5000 0.07 0.05 0.05 100 0.5 0.5)
    (PlanningSettings.mk 2025 3 0.02)
    [ExpenseCategory.mk "rent" "Rent" 1500; ExpenseCategory.mk "food" "Food" 500]
    [RSUGrant.mk "grant-2024-main" 2024 "Main" 100000 100 (100000 / 100) 4 0.25;
     RSUGrant.mk "grant-2025-refresher" 2025 "Refresher" 40000 150 (40000 / 150) 4 0.25].

(** A snapshot whose employee pension (60% of base salary) exceeds half the
    gross income, so that the net salary is negative. *)
Definition highPensionData : FinancialData.t :=
  FinancialData.mk
    (IncomeSettings.mk 50000 0 0.08 0.60 0.10 0 false 0)
    (InvestmentSettings.mk 0 0 0.07 0.05 0.05 100 0.5 0.5)
    (PlanningSettings.mk 2025 1 0)
    []
    [].

(** ** Further code of the calculators *)

(** [calculateVestingSchedule] (src/src/utils/taxCalculations.ts): years of
    the plan initialised to 0, then per grant and per year the positive
    vesting amounts added. *)
Definition calculateVestingSchedule (grants : list RSUGrant.t) (startYear : Z)
    (projectionYears : nat) : NumMap :=
  let init :=
    fold_left (fun m i => map_set m (startYear + Z.of_nat i)%Z 0)
      (seq 0 projectionYears) map_empty in
  fold_left
    (fun m grant =>
       fold_left
         (fun m i =>
            let year := (startYear + Z.of_nat i)%Z in
            let sharesVesting := calculateSharesVestingInYear grant year in
            if Qltb 0 sharesVesting then
              let currentTotal := map_get_or0 m year in
              map_set m year (currentTotal + sharesVesting)
            else m)
         (seq 0 projectionYears) m)
    grants init.

(** Decimal text of an integer, as a template literal prints it (integers
    below 10^21, where JavaScript writes plain digits). *)
Fixpoint digitsN (fuel : nat) (n : N) (acc : string) : string :=
  match fuel with
  | O => acc
  | S f =>
      let acc' := String (Ascii.ascii_of_N (48 + N.modulo n 10)) acc in
      if N.eqb (N.div n 10) 0 then acc' else digitsN f (N.div n 10) acc'
  end.

Definition number_to_string (z : Z) : string :=
  if (z <? 0)%Z then String "-"%char (digitsN 22 (Z.to_N (- z)) EmptyString)
  else digitsN 22 (Z.to_N z) EmptyString.

Definition createDefaultRSUGrant (grantYear : Z) : RSUGrant.t :=
  let grantValueEur := 100000 in
  let sharePriceEur := 100 in
  RSUGrant.mk (String.append "grant-" (String.append (number_to_string grantYear) "-main")) grantYear "Main"
    grantValueEur sharePriceEur (grantValueEur / sharePriceEur) 4 0.25.

Definition createRefresherGrant (grantYear : Z) (grantValue : Q) : RSUGrant.t :=
  let sharePriceEur := 150 in
  RSUGrant.mk (String.append "grant-" (String.append (number_to_string grantYear) "-refresher")) grantYear "Refresher"
    grantValue sharePriceEur (grantValue / sharePriceEur) 4 0.25.

Definition updateGrantShares (grant : RSUGrant.t) : RSUGrant.t :=
  RSUGrant.mk (RSUGrant.id grant) (RSUGrant.grantYear grant) (RSUGrant.grantType grant)
    (RSUGrant.grantValueEur grant) (RSUGrant.sharePriceEur grant)
    (RSUGrant.grantValueEur grant / RSUGrant.sharePriceEur grant)
    (RSUGrant.vestingYears grant) (RSUGrant.vestingPercentagePerYear grant).

(** A [Partial<RSUGrant>]: [None] for an absent key. *)
Module RSUGrantUpdate.
Record t := mk {
  id : option string;
  grantYear : option Z;
  grantType : option string;
  grantValueEur : option Q;
  sharePriceEur : option Q;
  grantShares : option Q;
  vestingYears : option Z;
  vestingPercentagePerYear : option Q
}.
End RSUGrantUpdate.

Definition override {A} (o : option A) (a : A) : A :=
  match o with Some x => x | None => a end.

(** [{ ...grant, ...updates }] *)
Definition mergeGrant (grant : RSUGrant.t) (u : RSUGrantUpdate.t) : RSUGrant.t :=
  RSUGrant.mk (override (RSUGrantUpdate.id u) (RSUGrant.id grant))
    (override (RSUGrantUpdate.grantYear u) (RSUGrant.grantYear grant))
    (override (RSUGrantUpdate.grantType u) (RSUGrant.grantType grant))
    (override (RSUGrantUpdate.grantValueEur u) (RSUGrant.grantValueEur grant))
    (override (RSUGrantUpdate.sharePriceEur u) (RSUGrant.sharePriceEur grant))
    (override (RSUGrantUpdate.grantShares u) (RSUGrant.grantShares grant))
    (override (RSUGrantUpdate.vestingYears u) (RSUGrant.vestingYears grant))
    (override (RSUGrantUpdate.vestingPercentagePerYear u)
       (RSUGrant.vestingPercentagePerYear grant)).

(** The list transformation of [updateRSUGrant] (src/src/context/FinancialContext.tsx). *)
Definition updateRSUGrant (id : string) (updates : RSUGrantUpdate.t)
    (rsuGrants : list RSUGrant.t) : list RSUGrant.t :=
  map (fun grant =>
         if String.eqb (RSUGrant.id grant) id then
           let updated := mergeGrant grant updates in
           match RSUGrantUpdate.grantValueEur updates, RSUGrantUpdate.sharePriceEur updates with
           | None, None => updated
           | _, _ => updateGrantShares updated
           end
         else grant)
    rsuGrants.

Definition removeRSUGrant (id : string) (rsuGrants : list RSUGrant.t) : list RSUGrant.t :=
  filter (fun grant => negb (String.eqb (RSUGrant.id grant) id)) rsuGrants.

Definition removeExpenseCategory (id : string) (cats : list ExpenseCategory.t)
    : list ExpenseCategory.t :=
  filter (fun cat => negb (String.eqb (ExpenseCategory.id cat) id)) cats.

(** A JavaScript [Map<string, number>]. *)
Definition StrMap := string -> option Q.
Definition smap_empty : StrMap := fun _ => None.
Definition smap_set (m : StrMap) (k : string) (v : Q) : StrMap :=
  fun k' => if String.eqb k' k then Some v else m k'.

(** [calculateExpenseBreakdown] (src/unnamed/part_002). *)
Definition calculateExpenseBreakdown (expenseCategories : list ExpenseCategory.t)
    (year startYear : Z) (expenseInflationRate : Q) : StrMap :=
  let yearsFromStart := (year - startYear)%Z in
  let inflationMultiplier := Qpower (1 + expenseInflationRate) yearsFromStart in
  fold_left
    (fun m category =>
       let annualAmount := ExpenseCategory.monthlyAmount category * 12 * inflationMultiplier in
       smap_set m (ExpenseCategory.name category) annualAmount)
    expenseCategories smap_empty.

(** [calculateAllocationBreakdown] (src/src/utils/investmentCalculations.ts);
    an allocation is a [(name, percentage)] pair. *)
Definition calculateAllocationBreakdown (totalValue : Q) (allocations : list (string * Q))
    : StrMap :=
  fold_left (fun m '(name, percentage) => smap_set m name (totalValue * percentage))
    allocations smap_empty.

(** [calculateAverageMetrics] (src/unnamed/part_002). *)
Record AverageMetrics := mkAverageMetrics {
  averageSavingsRate : Q;
  averageEffectiveTaxRate : Q;
  totalSavings : Q
}.

Definition calculateAverageMetrics (financials : list YearlyFinancial.t) : AverageMetrics :=
  match financials with
  | [] => mkAverageMetrics 0 0 0
  | _ =>
      let n := inject_Z (Z.of_nat (List.length financials)) in
      let totalSavings :=
        fold_left (fun sum f => sum + YearlyFinancial.netSavings f) financials 0 in
      let averageSavingsRate :=
        fold_left (fun sum f => sum + YearlyFinancial.savingsRate f) financials 0 / n in
      let averageEffectiveTaxRate :=
        fold_left (fun sum f => sum + YearlyFinancial.effectiveTaxRate f) financials 0 / n in
      mkAverageMetrics averageSavingsRate averageEffectiveTaxRate totalSavings
  end.

(** [calculateNetWorthMetrics] (src/src/utils/investmentCalculations.ts). *)
Record NetWorthMetrics := mkNetWorthMetrics { finalNetWorth : Q; netWorthCAGR : Q }.

Definition calculateNetWorthMetrics (Math_pow : Q -> Q -> Q)
    (investments : list YearlyInvestment.t) : NetWorthMetrics :=
  match investments with
  | [] => mkNetWorthMetrics 0 0
  | firstYear :: _ =>
      let lastYear := last investments firstYear in
      let finalNetWorth := YearlyInvestment.closingBalance lastYear in
      let netWorthCAGR :=
        calculateCAGR Math_pow (YearlyInvestment.openingBalance firstYear) finalNetWorth
          (inject_Z (Z.of_nat (List.length investments))) in
      mkNetWorthMetrics finalNetWorth netWorthCAGR
  end.

(** ** Helpers for the properties *)

Definition brackets2025 := TaxConfig.incomeTaxBrackets NETHERLANDS_TAX_CONFIG_2025.
Definition social2025 := TaxConfig.socialContributions NETHERLANDS_TAX_CONFIG_2025.

(** The credited tax [incomeTax + social - general - labour] as a function
    of gross income, with the pension deduction [p] fixed. *)
Definition creditedTax (has30PercentRuling : bool) (p g : Q) : Q :=
  let t := if has30PercentRuling then (g - p) * 0.70 else g - p in
  calculateIncomeTax t brackets2025 + calculateSocialContributions t social2025
  - calculateGeneralTaxCredit t - calculateLabourTaxCredit g.

Definition grant2024 : RSUGrant.t :=
  RSUGrant.mk "grant-2024-main" 2024 "Main" 100000 100 (100000 / 100) 4 0.25.

Definition salary2025 : NumMap := calculateSalaryByYear 80000 0.03 2025 1.

Definition taxWith2025 : TaxResult.t :=
  calculateTax (80000 * 1.08 + 25000) 0.0338 false 2025 NETHERLANDS_TAX_CONFIG_2025
    (Some (80000 * 0.0338)).

Definition taxWithout2025 : TaxResult.t :=
  calculateTax (80000 * 1.08) 0.0338 false 2025 NETHERLANDS_TAX_CONFIG_2025
    (Some (80000 * 0.0338)).

(** Well-formed bracket tables: nonnegative rates and, where a bracket has an
    upper bound, [lowerBound <= upperBound]. *)
Definition bracketsWellFormed (brackets : list TaxBracket.t) : bool :=
  forallb (fun b =>
             Qle_bool 0 (TaxBracket.rate b)
             && match TaxBracket.upperBound b with
                | Some u => Qle_bool (TaxBracket.lowerBound b) u
                | None => true
                end) brackets.

Definition socialRatesNonneg (cs : list SocialContribution.t) : bool :=
  forallb (fun c => Qle_bool 0 (SocialContribution.rate c)) cs.

(** The largest total the social contributions can reach: every capped
    income at its cap. *)
Definition socialCap (cs : list SocialContribution.t) : Q :=
  fold_left (fun s c => s + SocialContribution.maxIncome c * SocialContribution.rate c) cs 0.

(** One iteration of the inner loop of [calculateVestingSchedule]. *)
Definition vestingStep (grant : RSUGrant.t) (startYear : Z) (m : NumMap) (i : nat) : NumMap :=
  let year := (startYear + Z.of_nat i)%Z in
  let sharesVesting := calculateSharesVestingInYear grant year in
  if Qltb 0 sharesVesting then
    let currentTotal := map_get_or0 m year in
    map_set m year (currentTotal + sharesVesting)
  else m.

(** One iteration of the loop of [vestingTotals]. *)
Definition vestingTotalsStep (year : Z) (acc : Q * Q) (grant : RSUGrant.t) : Q * Q :=
  let '(totalSharesVested, weightedGrantPrice) := acc in
  let sharesVesting := calculateSharesVestingInYear grant year in
  if Qltb 0 sharesVesting then
    (totalSharesVested + sharesVesting,
     weightedGrantPrice + sharesVesting * RSUGrant.sharePriceEur grant)
  else acc.

(** A year of 86,400 gross salary with 30% effective tax. *)
Definition sampleFinancial2025 : YearlyFinancial.t :=
  YearlyFinancial.mk 2025 86400 0 86400 60480 0 60480 8000 30000 38480 0.5 0.3.

(** * Properties *)

(** Case split on every comparison [Qle_bool a b] of the goal. *)
Ltac qcase :=
  repeat match goal with
  | |- context [Qle_bool ?a ?b] =>
      let H := fresh "Hc" in
      destruct (Qle_bool a b) eqn:H;
      [ apply Qle_bool_iff in H
      | apply not_true_iff_false in H; rewrite Qle_bool_iff in H; apply Qnot_le_lt in H ]
  end.

(** Case split on every integer comparison of the goal. *)
(* Case split on every integer comparison of the goal (year ranges). *)
Ltac zcase_one cmp x y :=
  lazymatch cmp with
  | Z.leb => destruct (Z.leb_spec x y)
  | Z.ltb => destruct (Z.ltb_spec x y)
  | Z.eqb => destruct (Z.eqb_spec x y)
  end.
Ltac zcase :=
  repeat match goal with
  |- context [?cmp ?x ?y] => zcase_one cmp x y
  end.

Lemma Math_max_l (a b : Q) : a <= Math_max a b.
Proof. unfold Math_max; qcase; lra. Qed.

Lemma Math_max_r (a b : Q) : b <= Math_max a b.
Proof. unfold Math_max; qcase; lra. Qed.

Lemma Math_max_mono (a b c : Q) : b <= c -> Math_max a b <= Math_max a c.
Proof. intros; unfold Math_max; qcase; lra. Qed.

Lemma Math_max_Qmax (a b : Q) : Math_max a b == Qmax a b.
Proof.
  unfold Math_max; qcase.
  - rewrite Q.max_r by exact Hc; reflexivity.
  - rewrite Q.max_l by lra; reflexivity.
Qed.

(** ** Tax engine under the 2025 configuration *)

(** Income tax plus social contributions: 37.07% up to 69,399, 49.5% above. *)
Lemma incomeTax_social_2025 (t : Q) :
  0 <= t ->
  calculateIncomeTax t brackets2025 + calculateSocialContributions t social2025
  == 0.3707 * t + 0.1243 * Math_max 0 (t - 69399).
Proof.
  intros Ht. unfold calculateIncomeTax, calculateSocialContributions, brackets2025,
    social2025, NETHERLANDS_TAX_CONFIG_2025; cbn.
  unfold Math_max, Math_min, Qltb; qcase; cbn; lra.
Qed.

Lemma incomeTax_social_slope (t1 t2 : Q) :
  0 <= t1 -> t1 <= t2 ->
  0.3707 * (t2 - t1)
  <= (calculateIncomeTax t2 brackets2025 + calculateSocialContributions t2 social2025)
     - (calculateIncomeTax t1 brackets2025 + calculateSocialContributions t1 social2025).
Proof.
  intros H1 H2.
  rewrite (incomeTax_social_2025 t1 H1), (incomeTax_social_2025 t2 ltac:(lra)).
  unfold Math_max; qcase; lra.
Qed.

Lemma generalTaxCredit_antitone (t1 t2 : Q) :
  t1 <= t2 -> calculateGeneralTaxCredit t2 <= calculateGeneralTaxCredit t1.
Proof.
  intros. unfold calculateGeneralTaxCredit, GENERAL_TAX_CREDIT_2025, Math_max.
  qcase; lra.
Qed.

Lemma labourTaxCredit_slope (g1 g2 : Q) :
  g1 <= g2 -> calculateLabourTaxCredit g2 - calculateLabourTaxCredit g1 <= 0.28461 * (g2 - g1).
Proof.
  intros. unfold calculateLabourTaxCredit, LABOUR_TAX_CREDIT_THRESHOLD_LOW,
    LABOUR_TAX_CREDIT_THRESHOLD_MID, LABOUR_TAX_CREDIT_THRESHOLD_HIGH,
    LABOUR_TAX_CREDIT_PHASEOUT_END, LABOUR_TAX_CREDIT_MAX_2025, Math_max.
  qcase; lra.
Qed.

(** Past the second build-up segment the labour credit grows by at most 2.61%. *)
Lemma labourTaxCredit_slope_high (g1 g2 : Q) :
  22357 < g1 -> g1 <= g2 ->
  calculateLabourTaxCredit g2 - calculateLabourTaxCredit g1 <= 0.02610 * (g2 - g1).
Proof.
  intros. unfold calculateLabourTaxCredit, LABOUR_TAX_CREDIT_THRESHOLD_LOW,
    LABOUR_TAX_CREDIT_THRESHOLD_MID, LABOUR_TAX_CREDIT_THRESHOLD_HIGH,
    LABOUR_TAX_CREDIT_PHASEOUT_END, LABOUR_TAX_CREDIT_MAX_2025, Math_max.
  qcase; lra.
Qed.

Lemma totalTax_creditedTax (g pp p : Q) (rul : bool) (y : Z) :
  TaxResult.totalTax (calculateTax g pp rul y NETHERLANDS_TAX_CONFIG_2025 (Some p))
  = Math_max p (creditedTax rul p g) + p.
Proof. reflexivity. Qed.

(** Under the 30% ruling the credits absorb all tax up to a gross income of 22,357. *)
Lemma creditedTax_ruling_low (p g : Q) :
  0 <= p -> p <= g -> g <= 22357 -> creditedTax true p g <= 0.
Proof.
  intros Hp Hpg Hg. unfold creditedTax; cbv beta iota zeta.
  rewrite (incomeTax_social_2025 ((g - p) * 0.70) ltac:(lra)).
  unfold calculateGeneralTaxCredit, calculateLabourTaxCredit, GENERAL_TAX_CREDIT_2025,
    LABOUR_TAX_CREDIT_THRESHOLD_LOW, LABOUR_TAX_CREDIT_THRESHOLD_MID,
    LABOUR_TAX_CREDIT_THRESHOLD_HIGH, LABOUR_TAX_CREDIT_PHASEOUT_END,
    LABOUR_TAX_CREDIT_MAX_2025, Math_max.
  qcase; lra.
Qed.

Lemma creditedTax_mono (rul : bool) (p g1 g2 : Q) :
  0 <= p -> p <= g1 -> g1 <= g2 ->
  (rul = false \/ 22357 < g1) -> creditedTax rul p g1 <= creditedTax rul p g2.
Proof.
  intros Hp Hpg Hg Hr. unfold creditedTax.
  destruct rul; cbv beta iota zeta.
  - destruct Hr as [Hr | Hr]; [discriminate |].
    pose proof (incomeTax_social_slope ((g1 - p) * 0.70) ((g2 - p) * 0.70)
                  ltac:(lra) ltac:(lra)).
    pose proof (generalTaxCredit_antitone ((g1 - p) * 0.70) ((g2 - p) * 0.70) ltac:(lra)).
    pose proof (labourTaxCredit_slope_high g1 g2 Hr Hg).
    lra.
  - pose proof (incomeTax_social_slope (g1 - p) (g2 - p) ltac:(lra) ltac:(lra)).
    pose proof (generalTaxCredit_antitone (g1 - p) (g2 - p) ltac:(lra)).
    pose proof (labourTaxCredit_slope g1 g2 Hg).
    lra.
Qed.

(** C1. Adding RSU income never lowers total tax: with the default 2025
    configuration, for a salary [s], an RSU value [r > 0], a pension override
    [p] with [0 <= p <= s] and either value of the 30%-ruling flag, the total
    tax on [s + r] is at least the total tax on [s]. *)
Theorem calculateTax_totalTax_rsu_monotone (s r p pensionPercentage : Q)
    (has30PercentRuling : bool) (year : Z) :
  0 <= s -> 0 < r -> 0 <= p -> p <= s ->
  TaxResult.totalTax
    (calculateTax s pensionPercentage has30PercentRuling year NETHERLANDS_TAX_CONFIG_2025 (Some p))
  <= TaxResult.totalTax
    (calculateTax (s + r) pensionPercentage has30PercentRuling year
       NETHERLANDS_TAX_CONFIG_2025 (Some p)).
Proof.
  intros Hs Hr Hp Hps.
  rewrite !totalTax_creditedTax.
  apply Qplus_le_compat; [| apply Qle_refl].
  destruct has30PercentRuling eqn:Hrul.
  - destruct (Qlt_le_dec 22357 s) as [Hhigh | Hlow].
    + apply Math_max_mono, creditedTax_mono; auto; lra.
    + pose proof (creditedTax_ruling_low p s Hp Hps Hlow) as Hc.
      pose proof (Math_max_l p (creditedTax true p (s + r))).
      unfold Math_max at 1; qcase; lra.
  - apply Math_max_mono, creditedTax_mono; auto; lra.
Qed.

Lemma calculateTax_totalTax_rsu_monotone_witness :
  (0 <= 50000 /\ 0 < 25000 /\ 0 <= 1690 /\ 1690 <= 50000) /\
  TaxResult.totalTax
    (calculateTax 50000 0.0338 true 2025 NETHERLANDS_TAX_CONFIG_2025 (Some 1690))
  <= TaxResult.totalTax
    (calculateTax (50000 + 25000) 0.0338 true 2025 NETHERLANDS_TAX_CONFIG_2025 (Some 1690)).
Proof.
  split.
  - repeat split; lra.
  - apply (calculateTax_totalTax_rsu_monotone 50000 25000 1690 0.0338 true 2025); lra.
Defined.

(** C3. [calculateTax] returns [totalTax = max(pension, incomeTax + social
    - generalCredit - labourCredit) + pension], [netIncome = grossIncome -
    totalTax] and [effectiveTaxRate = totalTax / grossIncome]. *)
Theorem calculateTax_totals (grossIncome pensionPercentage : Q) (has30PercentRuling : bool)
    (year : Z) (taxConfig : TaxConfig.t) (pensionContributionsOverride : option Q) :
  let r := calculateTax grossIncome pensionPercentage has30PercentRuling year taxConfig
             pensionContributionsOverride in
  TaxResult.totalTax r
  == Qmax (TaxResult.pensionContributions r)
       (TaxResult.incomeTax r + TaxResult.socialContributions r
        - TaxResult.generalTaxCredit r - TaxResult.labourTaxCredit r)
     + TaxResult.pensionContributions r
  /\ TaxResult.netIncome r == TaxResult.grossIncome r - TaxResult.totalTax r
  /\ TaxResult.grossIncome r = grossIncome
  /\ (~ grossIncome == 0 ->
      TaxResult.effectiveTaxRate r == TaxResult.totalTax r / TaxResult.grossIncome r).
Proof.
  cbv zeta. split; [| split; [| split]].
  - cbn [TaxResult.totalTax TaxResult.pensionContributions TaxResult.incomeTax
         TaxResult.socialContributions TaxResult.generalTaxCredit
         TaxResult.labourTaxCredit calculateTax].
    rewrite Math_max_Qmax. reflexivity.
  - reflexivity.
  - reflexivity.
  - intros _. reflexivity.
Qed.

Lemma calculateTax_totals_witness :
  ~ 50000 == 0 /\
  TaxResult.effectiveTaxRate
    (calculateTax 50000 0.0338 false 2025 NETHERLANDS_TAX_CONFIG_2025 None)
  == TaxResult.totalTax (calculateTax 50000 0.0338 false 2025 NETHERLANDS_TAX_CONFIG_2025 None)
     / 50000.
Proof.
  split; [lra |].
  pose proof (calculateTax_totals 50000 0.0338 false 2025 NETHERLANDS_TAX_CONFIG_2025 None)
    as (_ & _ & _ & H).
  apply H; lra.
Defined.

(** The parts of the credit bounds that hold: the general credit stays in
    [0, 2888] and the labour credit is nonnegative on nonnegative income. *)
Lemma generalTaxCredit_bounds (t : Q) :
  0 <= calculateGeneralTaxCredit t <= GENERAL_TAX_CREDIT_2025.
Proof.
  unfold calculateGeneralTaxCredit, GENERAL_TAX_CREDIT_2025, Math_max; qcase; lra.
Qed.

Lemma labourTaxCredit_nonneg (g : Q) : 0 <= g -> 0 <= calculateLabourTaxCredit g.
Proof.
  intros. unfold calculateLabourTaxCredit, LABOUR_TAX_CREDIT_THRESHOLD_LOW,
    LABOUR_TAX_CREDIT_THRESHOLD_MID, LABOUR_TAX_CREDIT_THRESHOLD_HIGH,
    LABOUR_TAX_CREDIT_PHASEOUT_END, LABOUR_TAX_CREDIT_MAX_2025, Math_max.
  qcase; lra.
Qed.

(** C4 (fails). At a gross income of 36,650, the end of the third build-up
    segment, the labour credit is 3887 + 14293 * 2.61% = 4260.0473, above
    [LABOUR_TAX_CREDIT_MAX_2025 = 4260]. *)
Theorem labourTaxCredit_exceeds_max_at_36650 :
  calculateLabourTaxCredit 36650 == 4260.0473
  /\ LABOUR_TAX_CREDIT_MAX_2025 < calculateLabourTaxCredit 36650.
Proof. split; vm_compute; reflexivity. Qed.

(** ** RSU vesting *)

Lemma nth_error_calculateRSUVestingByYear grants startYear projectionYears salaryByYear
    sharePriceGrowthRate currentStockPrice pensionPercentage has30PercentRuling
    taxResults taxResultsWithoutRSU (i : nat) :
  (i < projectionYears)%nat ->
  nth_error (calculateRSUVestingByYear grants startYear projectionYears salaryByYear
               sharePriceGrowthRate currentStockPrice pensionPercentage has30PercentRuling
               taxResults taxResultsWithoutRSU) i
  = Some (rsuVestingYearAt grants startYear salaryByYear sharePriceGrowthRate
            currentStockPrice pensionPercentage has30PercentRuling
            taxResults taxResultsWithoutRSU i).
Proof.
  intros Hi. unfold calculateRSUVestingByYear.
  rewrite nth_error_map, nth_error_seq.
  destruct (Nat.ltb_spec i projectionYears); [| lia]. reflexivity.
Qed.

(** C2. In exact mode (both tax series given, both with an entry at [i]),
    year [i] reports [taxPaid = taxResults[i].totalTax -
    taxResultsWithoutRSU[i].totalTax] and [netRSUValue = grossRSUValue -
    taxPaid]. *)
Theorem rsuVesting_exact_tax (grants : list RSUGrant.t) (startYear : Z)
    (projectionYears : nat) (salaryByYear : NumMap)
    (sharePriceGrowthRate currentStockPrice pensionPercentage : Q)
    (has30PercentRuling : bool) (taxResults taxResultsWithoutRSU : list TaxResult.t)
    (i : nat) (r rw : TaxResult.t) :
  (i < projectionYears)%nat ->
  nth_error taxResults i = Some r ->
  nth_error taxResultsWithoutRSU i = Some rw ->
  exists y,
    nth_error (calculateRSUVestingByYear grants startYear projectionYears salaryByYear
                 sharePriceGrowthRate currentStockPrice pensionPercentage has30PercentRuling
                 (Some taxResults) (Some taxResultsWithoutRSU)) i = Some y
    /\ RSUVestingYear.taxPaid y = TaxResult.totalTax r - TaxResult.totalTax rw
    /\ RSUVestingYear.netRSUValue y = RSUVestingYear.grossRSUValue y - RSUVestingYear.taxPaid y.
Proof.
  intros Hi Hr Hrw.
  rewrite nth_error_calculateRSUVestingByYear by exact Hi.
  eexists; split; [reflexivity |].
  unfold rsuVestingYearAt. rewrite Hr, Hrw.
  destruct (vestingTotals grants (startYear + Z.of_nat i)). cbn. auto.
Qed.

Lemma rsuVesting_exact_tax_witness :
  ((0 < 1)%nat /\ nth_error [taxWith2025] 0 = Some taxWith2025
   /\ nth_error [taxWithout2025] 0 = Some taxWithout2025) /\
  exists y,
    nth_error (calculateRSUVestingByYear [grant2024] 2025 1 salary2025 0.05 100 0.0338 false
                 (Some [taxWith2025]) (Some [taxWithout2025])) 0 = Some y
    /\ RSUVestingYear.taxPaid y = TaxResult.totalTax taxWith2025 - TaxResult.totalTax taxWithout2025
    /\ RSUVestingYear.netRSUValue y = RSUVestingYear.grossRSUValue y - RSUVestingYear.taxPaid y.
Proof.
  split; [repeat split; auto |].
  apply (rsuVesting_exact_tax [grant2024] 2025 1 salary2025 0.05 100 0.0338 false
           [taxWith2025] [taxWithout2025] 0 taxWith2025 taxWithout2025); auto.
Defined.

(** The fields of year [i] that do not depend on the tax mode. *)
Lemma rsuVestingYearAt_fields grants startYear salaryByYear sharePriceGrowthRate
    currentStockPrice pensionPercentage has30PercentRuling taxResults
    taxResultsWithoutRSU (i : nat) totalSharesVested weightedGrantPrice :
  vestingTotals grants (startYear + Z.of_nat i) = (totalSharesVested, weightedGrantPrice) ->
  let y := rsuVestingYearAt grants startYear salaryByYear sharePriceGrowthRate
             currentStockPrice pensionPercentage has30PercentRuling
             taxResults taxResultsWithoutRSU i in
  RSUVestingYear.year y = (startYear + Z.of_nat i)%Z
  /\ RSUVestingYear.sharesVested y = totalSharesVested
  /\ RSUVestingYear.grantPriceAvg y
     = (if Qltb 0 totalSharesVested then weightedGrantPrice / totalSharesVested
        else currentStockPrice)
  /\ RSUVestingYear.vestingPriceEur y
     = currentStockPrice * Qpower (1 + sharePriceGrowthRate) (RSUVestingYear.year y - startYear)
  /\ RSUVestingYear.grossRSUValue y = totalSharesVested * RSUVestingYear.vestingPriceEur y
  /\ RSUVestingYear.appreciationPercentage y
     = (if Qltb 0 (RSUVestingYear.grantPriceAvg y)
        then (RSUVestingYear.vestingPriceEur y - RSUVestingYear.grantPriceAvg y)
             / RSUVestingYear.grantPriceAvg y
        else 0).
Proof.
  intros Hv. cbv zeta. unfold rsuVestingYearAt. rewrite Hv.
  match goal with |- context [match ?e with Some _ => _ | None => _ end] =>
    destruct e as [[r rw] |] end;
  cbn; repeat split.
Qed.

(** C5. A grant vests [grantShares * vestingPercentagePerYear] shares in
    exactly the years [y] with [0 <= y - grantYear < vestingYears], and none
    in the others; the vesting price of year [y] is [currentStockPrice *
    (1 + growth)^(y - startYear)].  For the 100,000 EUR grant at 100 EUR of
    2024 vesting 25% a year over 4 years, with plan start 2025, current price
    100 and 5% growth, year 2025 vests 250 shares at 100, worth 25,000. *)
Theorem rsuVesting_schedule_and_price :
  (forall (grant : RSUGrant.t) (year : Z),
     calculateSharesVestingInYear grant year
     = if ((0 <=? year - RSUGrant.grantYear grant)
           && (year - RSUGrant.grantYear grant <? RSUGrant.vestingYears grant))%Z
       then RSUGrant.grantShares grant * RSUGrant.vestingPercentagePerYear grant
       else 0)
  /\ (forall grants startYear projectionYears salaryByYear sharePriceGrowthRate
        currentStockPrice pensionPercentage has30PercentRuling taxResults
        taxResultsWithoutRSU (i : nat) (y : RSUVestingYear.t),
        nth_error (calculateRSUVestingByYear grants startYear projectionYears salaryByYear
                     sharePriceGrowthRate currentStockPrice pensionPercentage
                     has30PercentRuling taxResults taxResultsWithoutRSU) i = Some y ->
        RSUVestingYear.year y = (startYear + Z.of_nat i)%Z
        /\ RSUVestingYear.vestingPriceEur y
           = currentStockPrice
             * Qpower (1 + sharePriceGrowthRate) (RSUVestingYear.year y - startYear))
  /\ (forall salaryByYear pensionPercentage has30PercentRuling taxResults taxResultsWithoutRSU,
        exists y,
          nth_error (calculateRSUVestingByYear [grant2024] 2025 5 salaryByYear 0.05 100
                       pensionPercentage has30PercentRuling
                       taxResults taxResultsWithoutRSU) 0 = Some y
          /\ RSUVestingYear.sharesVested y == 250
          /\ RSUVestingYear.vestingPriceEur y == 100
          /\ RSUVestingYear.grossRSUValue y == 25000).
Proof.
  split; [| split].
  - intros grant year. unfold calculateSharesVestingInYear.
    destruct (Z.ltb_spec (year - RSUGrant.grantYear grant) 0);
    destruct (Z.leb_spec 0 (year - RSUGrant.grantYear grant)); try lia;
    destruct (Z.leb_spec (RSUGrant.vestingYears grant) (year - RSUGrant.grantYear grant));
    destruct (Z.ltb_spec (year - RSUGrant.grantYear grant) (RSUGrant.vestingYears grant));
    try lia; reflexivity.
  - intros grants startYear projectionYears salaryByYear g cp pp rul tr trw i y Hy.
    assert (Hi : (i < projectionYears)%nat).
    { assert (Hl : nth_error (calculateRSUVestingByYear grants startYear projectionYears
                                salaryByYear g cp pp rul tr trw) i <> None)
        by (rewrite Hy; discriminate).
      apply nth_error_Some in Hl.
      unfold calculateRSUVestingByYear in Hl. rewrite length_map, length_seq in Hl. exact Hl. }
    rewrite nth_error_calculateRSUVestingByYear in Hy by exact Hi.
    injection Hy as <-.
    destruct (vestingTotals grants (startYear + Z.of_nat i)) as [tot w] eqn:Hv.
    pose proof (rsuVestingYearAt_fields grants startYear salaryByYear g cp pp rul tr trw i
                  tot w Hv) as (H1 & _ & _ & H4 & _).
    auto.
  - intros salaryByYear pp rul tr trw.
    rewrite nth_error_calculateRSUVestingByYear by lia.
    eexists; split; [reflexivity |].
    destruct (vestingTotals [grant2024] (2025 + Z.of_nat 0)) as [tot w] eqn:Hv.
    pose proof (rsuVestingYearAt_fields [grant2024] 2025 salaryByYear 0.05 100 pp rul tr trw
                  0 tot w Hv) as (H1 & H2 & _ & H4 & H5 & _).
    vm_compute in Hv. injection Hv as <- <-.
    rewrite H5, H4, H2, H1. vm_compute. repeat split.
Qed.

Lemma rsuVesting_schedule_and_price_witness :
  exists y,
    nth_error (calculateRSUVestingByYear [grant2024] 2025 3 salary2025 0.05 100 0.0338 false
                 None None) 2 = Some y
    /\ RSUVestingYear.year y = 2027%Z
    /\ RSUVestingYear.vestingPriceEur y = 100 * Qpower (1 + 0.05) (RSUVestingYear.year y - 2025).
Proof.
  destruct (nth_error (calculateRSUVestingByYear [grant2024] 2025 3 salary2025 0.05 100
                         0.0338 false None None) 2) as [y |] eqn:Hy.
  - exists y. split; [reflexivity |].
    destruct rsuVesting_schedule_and_price as (_ & Hp & _).
    destruct (Hp [grant2024] 2025%Z 3%nat salary2025 0.05 100 0.0338 false None None 2%nat y Hy)
      as [H1 H2].
    split; [rewrite H1; reflexivity | exact H2].
  - vm_compute in Hy. discriminate.
Defined.

Lemma vestingTotals_none_vesting (grants : list RSUGrant.t) (year : Z) (acc : Q * Q) :
  Forall (fun grant => calculateSharesVestingInYear grant year <= 0) grants ->
  fold_left
    (fun acc grant =>
       let '(totalSharesVested, weightedGrantPrice) := acc in
       let sharesVesting := calculateSharesVestingInYear grant year in
       if Qltb 0 sharesVesting then
         (totalSharesVested + sharesVesting,
          weightedGrantPrice + sharesVesting * RSUGrant.sharePriceEur grant)
       else acc) grants acc = acc.
Proof.
  revert acc. induction grants as [| g gs IH]; intros acc Hall; [reflexivity |].
  inversion Hall as [| ? ? Hg Hgs]; subst. cbn.
  destruct acc as [tot w].
  assert (Hlt : Qltb 0 (calculateSharesVestingInYear g year) = false).
  { unfold Qltb. apply negb_false_iff, Qle_bool_iff. exact Hg. }
  rewrite Hlt. apply IH, Hgs.
Qed.

(** C10. In a projection year where no grant vests any shares, the year
    reports [sharesVested = 0] and [grossRSUValue = 0], but its
    [grantPriceAvg] is the [currentStockPrice] argument, and its
    [appreciationPercentage] is measured against that price. *)
Theorem rsuVesting_no_vesting_fallback_price (grants : list RSUGrant.t) (startYear : Z)
    (projectionYears : nat) (salaryByYear : NumMap)
    (sharePriceGrowthRate currentStockPrice pensionPercentage : Q)
    (has30PercentRuling : bool) (taxResults taxResultsWithoutRSU : option (list TaxResult.t))
    (i : nat) (y : RSUVestingYear.t) :
  Forall (fun grant => calculateSharesVestingInYear grant (startYear + Z.of_nat i) <= 0) grants ->
  nth_error (calculateRSUVestingByYear grants startYear projectionYears salaryByYear
               sharePriceGrowthRate currentStockPrice pensionPercentage
               has30PercentRuling taxResults taxResultsWithoutRSU) i = Some y ->
  RSUVestingYear.sharesVested y = 0
  /\ RSUVestingYear.grossRSUValue y == 0
  /\ RSUVestingYear.grantPriceAvg y = currentStockPrice
  /\ RSUVestingYear.appreciationPercentage y
     = (if Qltb 0 currentStockPrice
        then (RSUVestingYear.vestingPriceEur y - currentStockPrice) / currentStockPrice
        else 0).
Proof.
  intros Hall Hy.
  assert (Hi : (i < projectionYears)%nat).
  { assert (Hl : nth_error (calculateRSUVestingByYear grants startYear projectionYears
                              salaryByYear sharePriceGrowthRate currentStockPrice
                              pensionPercentage has30PercentRuling taxResults
                              taxResultsWithoutRSU) i <> None)
      by (rewrite Hy; discriminate).
    apply nth_error_Some in Hl.
    unfold calculateRSUVestingByYear in Hl. rewrite length_map, length_seq in Hl. exact Hl. }
  rewrite nth_error_calculateRSUVestingByYear in Hy by exact Hi.
  injection Hy as <-.
  assert (Hv : vestingTotals grants (startYear + Z.of_nat i) = (0, 0))
    by (apply vestingTotals_none_vesting, Hall).
  pose proof (rsuVestingYearAt_fields grants startYear salaryByYear sharePriceGrowthRate
                currentStockPrice pensionPercentage has30PercentRuling taxResults
                taxResultsWithoutRSU i 0 0 Hv) as (_ & H2 & H3 & _ & H5 & H6).
  cbn in H3.
  rewrite H6, H5, H3, H2. repeat split.
Qed.

Lemma rsuVesting_no_vesting_fallback_price_witness :
  Forall (fun grant => calculateSharesVestingInYear grant (2030 + Z.of_nat 0) <= 0) [grant2024]
  /\ exists y,
       nth_error (calculateRSUVestingByYear [grant2024] 2030 1 salary2025 0.05 120 0.0338 false
                    None None) 0 = Some y
       /\ RSUVestingYear.sharesVested y = 0
       /\ RSUVestingYear.grantPriceAvg y = 120.
Proof.
  assert (Hall : Forall (fun grant => calculateSharesVestingInYear grant (2030 + Z.of_nat 0) <= 0)
                   [grant2024])
    by (repeat constructor; apply Qle_bool_iff; vm_compute; reflexivity).
  split; [exact Hall |].
  eexists; split; [reflexivity |].
  destruct (rsuVesting_no_vesting_fallback_price [grant2024] 2030%Z 1%nat salary2025 0.05 120
              0.0338 false None None 0%nat _ Hall eq_refl) as (H1 & _ & H3 & _).
  split; [exact H1 | exact H3].
Defined.

(** ** Balance rolls *)

Lemma investmentLoop_chain (s rate : Q) inc inv (fs : list YearlyFinancial.t) :
  forall (i : nat) (cur : Q) (k : nat) (a b : YearlyInvestment.t),
  nth_error (investmentLoop s rate inc inv i fs cur) k = Some a ->
  nth_error (investmentLoop s rate inc inv i fs cur) (S k) = Some b ->
  YearlyInvestment.openingBalance b = YearlyInvestment.closingBalance a.
Proof.
  induction fs as [| f fs IH]; intros i cur k a b Ha Hb; [destruct k; discriminate |].
  cbn in Ha, Hb. destruct k as [| k].
  - injection Ha as <-. destruct fs as [| f' fs']; [discriminate |].
    cbn in Hb. injection Hb as <-. reflexivity.
  - exact (IH _ _ _ _ _ Ha Hb).
Qed.

Lemma investmentLoop_first (s rate : Q) inc inv (fs : list YearlyFinancial.t) i cur a :
  nth_error (investmentLoop s rate inc inv i fs cur) 0 = Some a ->
  YearlyInvestment.openingBalance a = cur.
Proof. destruct fs; cbn; intros H; [discriminate | injection H as <-; reflexivity]. Qed.

Lemma pensionLoop_chain (rate : Q) (fs : list YearlyFinancial.t) :
  forall (trs : list TaxResult.t) (cur : Q) (res : list YearlyPension.t)
         (k : nat) (a b : YearlyPension.t),
  pensionLoop rate fs trs cur = Some res ->
  nth_error res k = Some a -> nth_error res (S k) = Some b ->
  YearlyPension.openingBalance b = YearlyPension.closingBalance a.
Proof.
  induction fs as [| f fs IH]; intros trs cur res k a b Hl Ha Hb.
  - injection Hl as <-. destruct k; discriminate.
  - destruct trs as [| tr trs]; [discriminate |].
    cbn in Hl.
    destruct (pensionLoop rate fs trs _) as [rs |] eqn:Hrs; [| discriminate].
    injection Hl as <-.
    destruct k as [| k].
    + injection Ha as <-. cbn in Hb.
      destruct fs as [| f' fs']; [injection Hrs as <-; discriminate |].
      destruct trs as [| tr' trs']; [discriminate |].
      cbn in Hrs.
      destruct (pensionLoop rate fs' trs' _); [| discriminate].
      injection Hrs as <-. injection Hb as <-. reflexivity.
    + exact (IH _ _ _ _ _ _ Hrs Ha Hb).
Qed.

Lemma pensionLoop_first (rate : Q) fs trs cur res a :
  pensionLoop rate fs trs cur = Some res -> nth_error res 0 = Some a ->
  YearlyPension.openingBalance a = cur.
Proof.
  destruct fs as [| f fs]; cbn; intros Hl Ha.
  - injection Hl as <-. discriminate.
  - destruct trs as [| tr trs]; [discriminate |].
    destruct (pensionLoop rate fs trs _); [| discriminate].
    injection Hl as <-. injection Ha as <-. reflexivity.
Qed.

(** C6. Balance chaining: in the investment series and in the pension
    series, each year opens at the previous year's closing balance, and the
    first year opens at the starting net worth (resp. starting pension
    balance). *)
Theorem balance_chaining :
  (forall (startingNetWorth annualReturnRate : Q) (yearlyFinancials : list YearlyFinancial.t)
          (incomeSettings : IncomeSettings.t) (investmentSettings : InvestmentSettings.t)
          (k : nat) (a b : YearlyInvestment.t),
     let res := calculateInvestmentProjections startingNetWorth annualReturnRate
                  yearlyFinancials incomeSettings investmentSettings in
     (nth_error res k = Some a -> nth_error res (S k) = Some b ->
      YearlyInvestment.openingBalance b = YearlyInvestment.closingBalance a)
     /\ (nth_error res 0 = Some a -> YearlyInvestment.openingBalance a = startingNetWorth))
  /\ (forall (startingPensionBalance pensionReturnRate : Q)
             (yearlyFinancials : list YearlyFinancial.t) (taxResults : list TaxResult.t)
             (res : list YearlyPension.t) (k : nat) (a b : YearlyPension.t),
        calculatePensionProjections startingPensionBalance pensionReturnRate
          yearlyFinancials taxResults = Some res ->
        (nth_error res k = Some a -> nth_error res (S k) = Some b ->
         YearlyPension.openingBalance b = YearlyPension.closingBalance a)
        /\ (nth_error res 0 = Some a -> YearlyPension.openingBalance a = startingPensionBalance)).
Proof.
  split.
  - intros s rate fs inc inv k a b. cbv zeta. unfold calculateInvestmentProjections. split.
    + apply investmentLoop_chain.
    + apply investmentLoop_first.
  - intros spb rate fs trs res k a b Hres. unfold calculatePensionProjections in Hres. split.
    + intros Ha Hb. exact (pensionLoop_chain rate fs trs spb res k a b Hres Ha Hb).
    + intros Ha. exact (pensionLoop_first rate fs trs spb res a Hres Ha).
Qed.

Lemma balance_chaining_witness :
  let p := recalculate sampleData in
  (exists a b,
     nth_error (FinancialProjections.yearlyInvestments p) 0 = Some a
     /\ nth_error (FinancialProjections.yearlyInvestments p) 1 = Some b
     /\ YearlyInvestment.openingBalance b = YearlyInvestment.closingBalance a)
  /\ (exists res a b,
       FinancialProjections.yearlyPension p = Some res
       /\ nth_error res 0 = Some a /\ nth_error res 1 = Some b
       /\ YearlyPension.openingBalance b = YearlyPension.closingBalance a
       /\ YearlyPension.openingBalance a = 5000).
Proof.
  cbv zeta. destruct balance_chaining as [HI HP]. split.
  - destruct (nth_error (FinancialProjections.yearlyInvestments (recalculate sampleData)) 0)
      as [a |] eqn:Ha; [| vm_compute in Ha; discriminate].
    destruct (nth_error (FinancialProjections.yearlyInvestments (recalculate sampleData)) 1)
      as [b |] eqn:Hb; [| vm_compute in Hb; discriminate].
    exists a, b. do 2 (split; [reflexivity |]).
    unfold recalculate in Ha, Hb; cbv zeta in Ha, Hb;
      cbn [FinancialProjections.yearlyInvestments] in Ha, Hb.
    exact (proj1 (HI _ _ _ _ _ 0%nat a b) Ha Hb).
  - destruct (FinancialProjections.yearlyPension (recalculate sampleData)) as [res |] eqn:Hp;
      [| vm_compute in Hp; discriminate].
    destruct (nth_error res 0) as [a |] eqn:Ha;
      [| vm_compute in Hp; injection Hp as <-; discriminate].
    destruct (nth_error res 1) as [b |] eqn:Hb;
      [| vm_compute in Hp; injection Hp as <-; discriminate].
    exists res, a, b.
    split; [first [exact Hp | reflexivity] |].
    split; [first [exact Ha | reflexivity] |].
    split; [first [exact Hb | reflexivity] |].
    unfold recalculate in Hp; cbv zeta in Hp; cbn [FinancialProjections.yearlyPension] in Hp.
    destruct (HP _ _ _ _ res 0%nat a b Hp) as [H1 H2].
    split; [exact (H1 Ha Hb) | exact (H2 Ha)].
Defined.

Lemma investmentLoop_roll (s rate : Q) inc inv (fs : list YearlyFinancial.t) :
  forall i cur y, In y (investmentLoop s rate inc inv i fs cur) ->
  YearlyInvestment.investmentGrowth y
  = (YearlyInvestment.openingBalance y + YearlyInvestment.contributions y / 2) * rate
  /\ YearlyInvestment.closingBalance y
     = YearlyInvestment.openingBalance y + YearlyInvestment.contributions y
       + YearlyInvestment.investmentGrowth y.
Proof.
  induction fs as [| f fs IH]; intros i cur y Hin; [contradiction |].
  destruct Hin as [<- | Hin]; [split; reflexivity | exact (IH _ _ _ Hin)].
Qed.

Lemma pensionLoop_roll (rate : Q) (fs : list YearlyFinancial.t) :
  forall trs cur res y, pensionLoop rate fs trs cur = Some res -> In y res ->
  let contributions := YearlyPension.employeeContributions y
                       + YearlyPension.employerContributions y in
  YearlyPension.pensionGrowth y = (YearlyPension.openingBalance y + contributions / 2) * rate
  /\ YearlyPension.closingBalance y
     = YearlyPension.openingBalance y + contributions + YearlyPension.pensionGrowth y.
Proof.
  induction fs as [| f fs IH]; intros trs cur res y Hl Hin.
  - injection Hl as <-. contradiction.
  - destruct trs as [| tr trs]; [discriminate |]. cbn in Hl.
    destruct (pensionLoop rate fs trs _) as [rs |] eqn:Hrs; [| discriminate].
    injection Hl as <-.
    destruct Hin as [<- | Hin]; [split; reflexivity | exact (IH _ _ _ _ Hrs Hin)].
Qed.

(** C7. Every balance roll computes [growth = (openingBalance +
    contributions / 2) * returnRate] and [closingBalance = openingBalance +
    contributions + growth]: [projectSingleYear], each year of the
    investment series and each year of the pension series (whose
    contributions are the employee plus the employer contributions).  From
    0 with 10,000 contributed at 10%, the growth is 500 and the closing
    balance 10,500. *)
Theorem balance_roll :
  (forall openingBalance contribution returnRate : Q,
     let r := projectSingleYear openingBalance contribution returnRate in
     growth r = (openingBalance + contribution / 2) * returnRate
     /\ sy_closingBalance r = openingBalance + contribution + growth r)
  /\ (forall (startingNetWorth annualReturnRate : Q) yearlyFinancials incomeSettings
             investmentSettings (y : YearlyInvestment.t),
        In y (calculateInvestmentProjections startingNetWorth annualReturnRate
                yearlyFinancials incomeSettings investmentSettings) ->
        YearlyInvestment.investmentGrowth y
        = (YearlyInvestment.openingBalance y + YearlyInvestment.contributions y / 2)
          * annualReturnRate
        /\ YearlyInvestment.closingBalance y
           = YearlyInvestment.openingBalance y + YearlyInvestment.contributions y
             + YearlyInvestment.investmentGrowth y)
  /\ (forall (startingPensionBalance pensionReturnRate : Q) yearlyFinancials taxResults
             (res : list YearlyPension.t) (y : YearlyPension.t),
        calculatePensionProjections startingPensionBalance pensionReturnRate
          yearlyFinancials taxResults = Some res ->
        In y res ->
        let contributions := YearlyPension.employeeContributions y
                             + YearlyPension.employerContributions y in
        YearlyPension.pensionGrowth y
        = (YearlyPension.openingBalance y + contributions / 2) * pensionReturnRate
        /\ YearlyPension.closingBalance y
           = YearlyPension.openingBalance y + contributions + YearlyPension.pensionGrowth y)
  /\ growth (projectSingleYear 0 10000 0.10) == 500
  /\ sy_closingBalance (projectSingleYear 0 10000 0.10) == 10500.
Proof.
  split; [| split; [| split; [| split]]].
  - intros. split; reflexivity.
  - intros s rate fs inc inv y Hin. exact (investmentLoop_roll s rate inc inv fs 0 s y Hin).
  - intros spb rate fs trs res y Hres Hin. exact (pensionLoop_roll rate fs trs spb res y Hres Hin).
  - vm_compute. reflexivity.
  - vm_compute. reflexivity.
Qed.

Lemma balance_roll_witness :
  let p := recalculate sampleData in
  exists y,
    nth_error (FinancialProjections.yearlyInvestments p) 0 = Some y
    /\ YearlyInvestment.closingBalance y
       = YearlyInvestment.openingBalance y + YearlyInvestment.contributions y
         + YearlyInvestment.investmentGrowth y.
Proof.
  cbv zeta.
  destruct (nth_error (FinancialProjections.yearlyInvestments (recalculate sampleData)) 0)
    as [y |] eqn:Hy; [| vm_compute in Hy; discriminate].
  exists y. split; [reflexivity |].
  apply nth_error_In in Hy.
  unfold recalculate in Hy; cbv zeta in Hy; cbn [FinancialProjections.yearlyInvestments] in Hy.
  destruct balance_roll as (_ & HI & _).
  exact (proj2 (HI _ _ _ _ _ y Hy)).
Defined.

(** ** Yearly financials *)

Lemma nth_error_calculateFinancialProjections inc plan cats taxResults rsuVestingByYear
    taxResultsWithoutRSU (i : nat) (f : YearlyFinancial.t) :
  nth_error (calculateFinancialProjections inc plan cats taxResults rsuVestingByYear
               taxResultsWithoutRSU) i = Some f ->
  exists salaryByYear expensesByYear,
    f = yearlyFinancialAt inc plan salaryByYear expensesByYear taxResults rsuVestingByYear
          taxResultsWithoutRSU i.
Proof.
  unfold calculateFinancialProjections. cbv zeta.
  rewrite nth_error_map, nth_error_seq.
  destruct (Nat.ltb_spec i (PlanningSettings.projectionYears plan)); [| discriminate].
  intros Hs; injection Hs as <-. do 2 eexists. reflexivity.
Qed.

(** C8 (fails as stated). With a negative total net income the savings
    rate is 0, not [netSavings / (totalNetIncome + employerPensionContribution)]:
    here the net salary is -6,000, the employer pension 5,000 and the net
    savings -1,000, so the formula gives 1. *)
Lemma savingsRate_formula_counterexample :
  exists f,
    nth_error (FinancialProjections.yearlyFinancials (recalculate highPensionData)) 0 = Some f
    /\ YearlyFinancial.totalNetIncome f == -6000
    /\ YearlyFinancial.employerPensionContribution f == 5000
    /\ YearlyFinancial.netSavings f == -1000
    /\ YearlyFinancial.savingsRate f == 0
    /\ ~ (YearlyFinancial.savingsRate f
          == YearlyFinancial.netSavings f
             / (YearlyFinancial.totalNetIncome f + YearlyFinancial.employerPensionContribution f)).
Proof.
  eexists; split; [vm_compute; reflexivity |].
  vm_compute. repeat split; discriminate.
Qed.

(** C8, as the code does it.  Year [i] of the aggregator has [netSavings =
    totalNetIncome - totalExpenses + employerPensionContribution];
    [savingsRate = netSavings / (totalNetIncome + employerPensionContribution)]
    when [totalNetIncome > 0] and [0] otherwise; [totalNetIncome = netIncome +
    netRSUValue] with [netRSUValue] read from the RSU series; and, when the
    salary-only tax series has year [i], [netIncome] is its net income plus
    twelve months of the tax-free healthcare benefit; when it has not (no
    series, or a shorter one), [netIncome] is the salary's proportional share
    of the total net income of [taxResults] (all of it when the total gross
    income is not positive), plus the same healthcare benefit. *)
Theorem yearlyFinancial_savings (inc : IncomeSettings.t) (plan : PlanningSettings.t)
    (cats : list ExpenseCategory.t) (taxResults : list TaxResult.t)
    (rsuVestingByYear : list RSUVestingYear.t) (taxResultsWithoutRSU : option (list TaxResult.t))
    (i : nat) (f : YearlyFinancial.t) :
  nth_error (calculateFinancialProjections inc plan cats taxResults rsuVestingByYear
               taxResultsWithoutRSU) i = Some f ->
  YearlyFinancial.netSavings f
  = YearlyFinancial.totalNetIncome f - YearlyFinancial.totalExpenses f
    + YearlyFinancial.employerPensionContribution f
  /\ YearlyFinancial.savingsRate f
     = (if Qltb 0 (YearlyFinancial.totalNetIncome f)
        then YearlyFinancial.netSavings f
             / (YearlyFinancial.totalNetIncome f + YearlyFinancial.employerPensionContribution f)
        else 0)
  /\ YearlyFinancial.totalNetIncome f
     = YearlyFinancial.netIncome f + YearlyFinancial.netRSUValue f
  /\ YearlyFinancial.netRSUValue f = field_or0 RSUVestingYear.netRSUValue rsuVestingByYear i
  /\ (forall trw rw, taxResultsWithoutRSU = Some trw -> nth_error trw i = Some rw ->
      YearlyFinancial.netIncome f
      = TaxResult.netIncome rw + IncomeSettings.healthcareBenefitMonthly inc * 12)
  /\ ((taxResultsWithoutRSU = None
       \/ exists trw, taxResultsWithoutRSU = Some trw /\ nth_error trw i = None) ->
      YearlyFinancial.netIncome f
      = field_or0 TaxResult.netIncome taxResults i
        * (if Qltb 0 (YearlyFinancial.totalGrossIncome f)
           then YearlyFinancial.grossIncome f / YearlyFinancial.totalGrossIncome f else 1)
        + IncomeSettings.healthcareBenefitMonthly inc * 12).
Proof.
  intros Hf.
  destruct (nth_error_calculateFinancialProjections _ _ _ _ _ _ _ _ Hf) as (sal & ex & ->).
  split; [reflexivity | split; [reflexivity | split; [reflexivity | split; [reflexivity |]]]].
  split.
  - intros trw rw -> Hrw. unfold yearlyFinancialAt. cbv zeta. rewrite Hrw. reflexivity.
  - intros [-> | (trw & -> & Hnone)]; unfold yearlyFinancialAt; cbv zeta;
      [| rewrite Hnone]; reflexivity.
Qed.

Lemma yearlyFinancial_savings_witness :
  exists f,
    nth_error (FinancialProjections.yearlyFinancials (recalculate sampleData)) 0 = Some f
    /\ YearlyFinancial.netSavings f
       = YearlyFinancial.totalNetIncome f - YearlyFinancial.totalExpenses f
         + YearlyFinancial.employerPensionContribution f.
Proof.
  destruct (nth_error (FinancialProjections.yearlyFinancials (recalculate sampleData)) 0)
    as [f |] eqn:Hf; [| vm_compute in Hf; discriminate].
  exists f. split; [reflexivity |].
  unfold recalculate in Hf; cbv zeta in Hf; cbn [FinancialProjections.yearlyFinancials] in Hf.
  exact (proj1 (yearlyFinancial_savings _ _ _ _ _ _ 0 f Hf)).
Defined.

(** C9. [calculateCAGR] returns exactly 0 when [startingValue <= 0] or
    [years <= 0], and [(endingValue / startingValue)^(1 / years) - 1]
    otherwise, whatever [Math.pow] computes. *)
Theorem calculateCAGR_spec (Math_pow : Q -> Q -> Q) (startingValue endingValue years : Q) :
  ((startingValue <= 0 \/ years <= 0) ->
   calculateCAGR Math_pow startingValue endingValue years = 0)
  /\ (0 < startingValue -> 0 < years ->
      calculateCAGR Math_pow startingValue endingValue years
      = Math_pow (endingValue / startingValue) (1 / years) - 1).
Proof.
  unfold calculateCAGR. split.
  - intros [H | H].
    + apply Qle_bool_iff in H. rewrite H. reflexivity.
    + apply Qle_bool_iff in H. rewrite H, orb_true_r. reflexivity.
  - intros Hs Hy.
    assert (Hs' : Qle_bool startingValue 0 = false)
      by (apply not_true_iff_false; rewrite Qle_bool_iff; lra).
    assert (Hy' : Qle_bool years 0 = false)
      by (apply not_true_iff_false; rewrite Qle_bool_iff; lra).
    rewrite Hs', Hy'. reflexivity.
Qed.

Lemma calculateCAGR_spec_witness :
  calculateCAGR (fun x e => x * e) 0 30000 3 = 0
  /\ calculateCAGR (fun x e => x * e) 20000 30000 3 = 30000 / 20000 * (1 / 3) - 1.
Proof.
  split.
  - apply (proj1 (calculateCAGR_spec (fun x e => x * e) 0 30000 3)). left. lra.
  - apply (proj2 (calculateCAGR_spec (fun x e => x * e) 20000 30000 3)); lra.
Defined.

(** * Further properties of the code *)

(** ** Tax engine *)

Lemma incomeTaxLoop_acc (t : Q) (bs : list TaxBracket.t) (a : Q) :
  bracketsWellFormed bs = true -> a <= incomeTaxLoop t bs a.
Proof.
  revert a. induction bs as [| b rest IH]; intros a Hwf; cbn in *; [lra |].
  apply andb_prop in Hwf as [Hb Hwf]. apply andb_prop in Hb as [Hr Hu].
  apply Qle_bool_iff in Hr.
  destruct b as [lb ub r]; cbn in *.
  unfold Qltb; destruct (Qle_bool t lb) eqn:Hc; cbn.
  - apply IH; auto.
  - apply not_true_iff_false in Hc; rewrite Qle_bool_iff in Hc; apply Qnot_le_lt in Hc.
    eapply Qle_trans; [| apply IH; auto].
    destruct ub as [u |]; cbn; unfold Math_min; [apply Qle_bool_iff in Hu |]; qcase; nra.
Qed.

Lemma incomeTaxLoop_mono (bs : list TaxBracket.t) (t1 t2 a1 a2 : Q) :
  bracketsWellFormed bs = true -> t1 <= t2 -> a1 <= a2 ->
  incomeTaxLoop t1 bs a1 <= incomeTaxLoop t2 bs a2.
Proof.
  revert a1 a2. induction bs as [| b rest IH]; intros a1 a2 Hwf Ht Ha; cbn in *; [lra |].
  apply andb_prop in Hwf as [Hb Hwf]. apply andb_prop in Hb as [Hr Hu].
  apply Qle_bool_iff in Hr.
  destruct b as [lb ub r]; cbn in *.
  apply IH; auto.
  destruct ub as [u |]; cbn; unfold Qltb, Math_min; [apply Qle_bool_iff in Hu |];
    qcase; cbn; nra.
Qed.

Lemma socialLoop_mono (cs : list SocialContribution.t) (t1 t2 a1 a2 : Q) :
  socialRatesNonneg cs = true -> t1 <= t2 -> a1 <= a2 ->
  socialLoop t1 cs a1 <= socialLoop t2 cs a2.
Proof.
  revert a1 a2. induction cs as [| c rest IH]; intros a1 a2 Hn Ht Ha; cbn in *; [lra |].
  apply andb_prop in Hn as [Hr Hn]. apply Qle_bool_iff in Hr.
  apply IH; auto. unfold Math_min; qcase; nra.
Qed.

Lemma socialLoop_cap (cs : list SocialContribution.t) (t a b : Q) :
  socialRatesNonneg cs = true -> a <= b ->
  socialLoop t cs a
  <= fold_left (fun s c => s + SocialContribution.maxIncome c * SocialContribution.rate c) cs b.
Proof.
  revert a b. induction cs as [| c rest IH]; intros a b Hn Hab; cbn in *; [lra |].
  apply andb_prop in Hn as [Hr Hn]. apply Qle_bool_iff in Hr.
  apply IH; auto. unfold Math_min; qcase; nra.
Qed.

(** X1. For any bracket table with nonnegative rates and ordered bounds, the
    income tax is nonnegative and never decreases when taxable income grows. *)
Theorem calculateIncomeTax_nonneg_mono (brackets : list TaxBracket.t) (t1 t2 : Q) :
  bracketsWellFormed brackets = true -> t1 <= t2 ->
  0 <= calculateIncomeTax t1 brackets
  /\ calculateIncomeTax t1 brackets <= calculateIncomeTax t2 brackets.
Proof.
  intros Hwf Ht. unfold calculateIncomeTax. split.
  - apply incomeTaxLoop_acc; exact Hwf.
  - apply incomeTaxLoop_mono; auto; lra.
Qed.

Lemma calculateIncomeTax_nonneg_mono_witness :
  (bracketsWellFormed brackets2025 = true /\ 30000 <= 80000) /\
  0 <= calculateIncomeTax 30000 brackets2025
  /\ calculateIncomeTax 30000 brackets2025 <= calculateIncomeTax 80000 brackets2025.
Proof.
  split; [split; [reflexivity | lra] |].
  apply (calculateIncomeTax_nonneg_mono brackets2025 30000 80000); [reflexivity | lra].
Defined.

(** X2. With nonnegative rates, social contributions never decrease with taxable
    income and never exceed the sum of [maxIncome * rate] over the schemes
    (9,808.008 for the 2025 configuration). *)
Theorem calculateSocialContributions_mono_cap (cs : list SocialContribution.t) (t1 t2 : Q) :
  socialRatesNonneg cs = true -> t1 <= t2 ->
  calculateSocialContributions t1 cs <= calculateSocialContributions t2 cs
  /\ calculateSocialContributions t2 cs <= socialCap cs.
Proof.
  intros Hn Ht. unfold calculateSocialContributions, socialCap. split.
  - apply socialLoop_mono; auto; lra.
  - apply socialLoop_cap; auto; lra.
Qed.

Lemma calculateSocialContributions_mono_cap_witness :
  (socialRatesNonneg social2025 = true /\ 30000 <= 80000) /\
  calculateSocialContributions 30000 social2025 <= calculateSocialContributions 80000 social2025
  /\ calculateSocialContributions 80000 social2025 <= socialCap social2025
  /\ socialCap social2025 == 9808.008.
Proof.
  split; [split; [reflexivity | lra] |].
  destruct (calculateSocialContributions_mono_cap social2025 30000 80000
              eq_refl ltac:(lra)) as [H1 H2].
  split; [exact H1 | split; [exact H2 | vm_compute; reflexivity]].
Defined.

(** X3. The marginal rate under the 2025 configuration: 37.07% on taxable income
    in [0, 69399), 49.5% from 69,399 on, and 77.15% on negative taxable
    income, where no bracket matches and the loop falls back to the rate of
    the last (unbounded) bracket while the social rate still applies. *)
Theorem marginalTaxRate_2025 (t : Q) :
  (t < 0 -> calculateMarginalTaxRate t brackets2025 social2025 == 0.7715)
  /\ (0 <= t -> t < 69399 -> calculateMarginalTaxRate t brackets2025 social2025 == 0.3707)
  /\ (69399 <= t -> calculateMarginalTaxRate t brackets2025 social2025 == 0.495).
Proof.
  unfold calculateMarginalTaxRate, brackets2025, social2025, NETHERLANDS_TAX_CONFIG_2025;
    cbn; unfold Qltb; qcase; cbn; repeat split; intros; lra.
Qed.

Lemma marginalTaxRate_2025_witness :
  (-1000 < 0 -> calculateMarginalTaxRate (-1000) brackets2025 social2025 == 0.7715)
  /\ ((0 <= 50000 /\ 50000 < 69399)
      /\ calculateMarginalTaxRate 50000 brackets2025 social2025 == 0.3707)
  /\ (69399 <= 90000 /\ calculateMarginalTaxRate 90000 brackets2025 social2025 == 0.495).
Proof.
  split; [apply (proj1 (marginalTaxRate_2025 (-1000))) |].
  split; [split; [split; lra | apply (proj1 (proj2 (marginalTaxRate_2025 50000))); lra] |].
  split; [lra | apply (proj2 (proj2 (marginalTaxRate_2025 90000))); lra].
Defined.

(** X4. Whatever the configuration, the tax after credits is floored at the
    pension contributions, which are then added again: total tax is at least
    twice the pension contributions and net income at most gross income
    minus twice the pension contributions. *)
Theorem calculateTax_pension_floor (grossIncome pensionPercentage : Q)
    (has30PercentRuling : bool) (year : Z) (taxConfig : TaxConfig.t)
    (pensionContributionsOverride : option Q) :
  let r := calculateTax grossIncome pensionPercentage has30PercentRuling year taxConfig
             pensionContributionsOverride in
  2 * TaxResult.pensionContributions r <= TaxResult.totalTax r
  /\ TaxResult.netIncome r <= grossIncome - 2 * TaxResult.pensionContributions r.
Proof.
  cbv zeta; cbn [TaxResult.totalTax TaxResult.netIncome TaxResult.pensionContributions
                 calculateTax].
  match goal with |- context [Math_max ?p ?x] => pose proof (Math_max_l p x) end.
  split; lra.
Qed.

(** X5. The general tax credit: 2,888 up to a taxable income of 21,318, never
    increasing, never negative, and 0 from 69,396 on. *)
Theorem generalTaxCredit_shape (t1 t2 : Q) :
  (t1 <= 21318 -> calculateGeneralTaxCredit t1 == GENERAL_TAX_CREDIT_2025)
  /\ (t1 <= t2 -> calculateGeneralTaxCredit t2 <= calculateGeneralTaxCredit t1)
  /\ 0 <= calculateGeneralTaxCredit t1 <= GENERAL_TAX_CREDIT_2025
  /\ (69396 <= t1 -> calculateGeneralTaxCredit t1 == 0).
Proof.
  split; [| split; [apply generalTaxCredit_antitone | split; [apply generalTaxCredit_bounds |]]];
    intros; unfold calculateGeneralTaxCredit, GENERAL_TAX_CREDIT_2025, Math_max; qcase; lra.
Qed.

Lemma generalTaxCredit_shape_witness :
  (20000 <= 21318 /\ calculateGeneralTaxCredit 20000 == GENERAL_TAX_CREDIT_2025)
  /\ (30000 <= 60000 /\ calculateGeneralTaxCredit 60000 <= calculateGeneralTaxCredit 30000)
  /\ (69396 <= 69398 /\ calculateGeneralTaxCredit 69398 == 0).
Proof.
  split; [split; [lra | apply (proj1 (generalTaxCredit_shape 20000 0)); lra] |].
  split; [split; [lra | apply (proj1 (proj2 (generalTaxCredit_shape 30000 60000))); lra] |].
  split; [lra | apply (proj2 (proj2 (proj2 (generalTaxCredit_shape 69398 0)))); lra].
Defined.

(** X6. The labour tax credit: at most 4,260.0473 at any income, reached at
    36,650; nonnegative on nonnegative income; 0 from 109,347 on. *)
Theorem labourTaxCredit_shape (g : Q) :
  calculateLabourTaxCredit g <= 4260.0473
  /\ calculateLabourTaxCredit 36650 == 4260.0473
  /\ (0 <= g -> 0 <= calculateLabourTaxCredit g)
  /\ (109347 <= g -> calculateLabourTaxCredit g == 0).
Proof.
  split; [| split; [vm_compute; reflexivity | split; [apply labourTaxCredit_nonneg |]]];
    intros; unfold calculateLabourTaxCredit, LABOUR_TAX_CREDIT_THRESHOLD_LOW,
    LABOUR_TAX_CREDIT_THRESHOLD_MID, LABOUR_TAX_CREDIT_THRESHOLD_HIGH,
    LABOUR_TAX_CREDIT_PHASEOUT_END, LABOUR_TAX_CREDIT_MAX_2025, Math_max; qcase; lra.
Qed.

Lemma labourTaxCredit_shape_witness :
  (0 <= 20000 /\ 0 <= calculateLabourTaxCredit 20000)
  /\ (109347 <= 120000 /\ calculateLabourTaxCredit 120000 == 0).
Proof.
  split; [split; [lra | apply (proj1 (proj2 (proj2 (labourTaxCredit_shape 20000)))); lra] |].
  split; [lra | apply (proj2 (proj2 (proj2 (labourTaxCredit_shape 120000)))); lra].
Defined.

(** X7. Without exact tax results, the RSU tax is the RSU value times the marginal
    rate of salary plus RSU; under the 2025 configuration, with a pension
    share of at most 100% and a nonnegative salary and RSU value, it lies
    between 37.07% and 49.5% of the RSU value, with or without the ruling. *)
Theorem calculateRSUTax_between (s r pensionPercentage : Q) (has30PercentRuling : bool)
    (year : Z) :
  0 <= s -> 0 <= r -> pensionPercentage <= 1 ->
  let res := calculateRSUTax s r pensionPercentage has30PercentRuling year
               NETHERLANDS_TAX_CONFIG_2025 in
  0.3707 * r <= taxOnRSU res <= 0.495 * r
  /\ rsu_netRSUValue res == r - taxOnRSU res.
Proof.
  intros Hs Hr Hpp. cbv zeta.
  set (t := if has30PercentRuling then ((s + r) - (s + r) * pensionPercentage) * 0.70
            else (s + r) - (s + r) * pensionPercentage).
  assert (Ht : 0 <= t) by (subst t; destruct has30PercentRuling; nra).
  assert (Hm : calculateMarginalTaxRate t brackets2025 social2025 == 0.3707
               \/ calculateMarginalTaxRate t brackets2025 social2025 == 0.495).
  { destruct (marginalTaxRate_2025 t) as (_ & H1 & H2).
    destruct (Qlt_le_dec t 69399); [left; apply H1 | right; apply H2]; auto. }
  cbn [calculateRSUTax taxOnRSU rsu_netRSUValue TaxResult.marginalTaxRate calculateTax].
  fold t. fold brackets2025 social2025.
  destruct Hm as [Hm | Hm]; rewrite Hm; split; try lra; split; nra.
Qed.

Lemma calculateRSUTax_between_witness :
  (0 <= 80000 /\ 0 <= 25000 /\ 0.0338 <= 1) /\
  0.3707 * 25000 <= taxOnRSU (calculateRSUTax 80000 25000 0.0338 false 2025
                                NETHERLANDS_TAX_CONFIG_2025) <= 0.495 * 25000.
Proof.
  split; [repeat split; lra |].
  apply (calculateRSUTax_between 80000 25000 0.0338 false 2025); lra.
Defined.

(** ** RSU vesting and grants *)

Lemma fold_set_seq (f : nat -> Q) (start : Z) (k : nat) (m : NumMap) (y : Z) :
  fold_left (fun m i => map_set m (start + Z.of_nat i)%Z (f i)) (seq 0 k) m y
  = if ((start <=? y)%Z && (y <? start + Z.of_nat k)%Z)%bool
    then Some (f (Z.to_nat (y - start))) else m y.
Proof.
  revert y. induction k as [| k IH]; intros y.
  - cbn. zcase; cbn; reflexivity || lia.
  - rewrite seq_S, fold_left_app. cbn [fold_left]. unfold map_set at 1.
    rewrite IH. zcase; cbn; try reflexivity; try lia.
    f_equal; f_equal; lia.
Qed.

Lemma vestingStep_seq (grant : RSUGrant.t) (start : Z) (n : nat) (m : NumMap) (y : Z) :
  fold_left (vestingStep grant start) (seq 0 n) m y
  = if ((start <=? y)%Z && (y <? start + Z.of_nat n)%Z
        && Qltb 0 (calculateSharesVestingInYear grant y))%bool
    then Some (map_get_or0 m y + calculateSharesVestingInYear grant y) else m y.
Proof.
  revert y. induction n as [| n IH]; intros y.
  - cbn. zcase; cbn; reflexivity || lia.
  - rewrite seq_S, fold_left_app, Nat.add_0_l. cbn [fold_left]. unfold vestingStep at 1. cbv zeta.
    destruct (Z.eqb_spec y (start + Z.of_nat n)) as [Hy | Hy].
    + subst y.
      destruct (Qltb 0 (calculateSharesVestingInYear grant (start + Z.of_nat n)%Z)) eqn:E.
      * unfold map_set, map_get_or0 at 1. rewrite Z.eqb_refl, IH, E. zcase; cbn; try lia.
        reflexivity.
      * rewrite IH, E, andb_false_r. zcase; cbn; reflexivity || lia.
    + destruct (Qltb 0 _); [unfold map_set at 1; rewrite (proj2 (Z.eqb_neq _ _) Hy) |];
      rewrite IH; zcase; cbn; try reflexivity; lia.
Qed.

Lemma vestingTotals_fold (grants : list RSUGrant.t) (year : Z) :
  vestingTotals grants year = fold_left (vestingTotalsStep year) grants (0, 0).
Proof. reflexivity. Qed.

Lemma calculateVestingSchedule_fold (grants : list RSUGrant.t) (startYear : Z) (n : nat) :
  calculateVestingSchedule grants startYear n
  = fold_left (fun m grant => fold_left (vestingStep grant startYear) (seq 0 n) m) grants
      (fold_left (fun m i => map_set m (startYear + Z.of_nat i)%Z ((fun _ => 0) i))
         (seq 0 n) map_empty).
Proof. reflexivity. Qed.

Lemma schedule_in (grants : list RSUGrant.t) (s : Z) (n : nat) (m : NumMap) (y : Z) (a w : Q) :
  ((s <=? y)%Z && (y <? s + Z.of_nat n)%Z)%bool = true -> m y = Some a ->
  fold_left (fun m grant => fold_left (vestingStep grant s) (seq 0 n) m) grants m y
  = Some (fst (fold_left (vestingTotalsStep y) grants (a, w))).
Proof.
  intros Hin. revert m a w. induction grants as [| g gs IH]; intros m a w Hm; [exact Hm |].
  cbn [fold_left]. unfold vestingTotalsStep at 2.
  destruct (Qltb 0 (calculateSharesVestingInYear g y)) eqn:E; apply IH;
    rewrite vestingStep_seq, Hin, E; cbn; [unfold map_get_or0; rewrite Hm |]; exact Hm || reflexivity.
Qed.

Lemma schedule_out (grants : list RSUGrant.t) (s : Z) (n : nat) (m : NumMap) (y : Z) :
  ((s <=? y)%Z && (y <? s + Z.of_nat n)%Z)%bool = false ->
  fold_left (fun m grant => fold_left (vestingStep grant s) (seq 0 n) m) grants m y = m y.
Proof.
  intros Hout. revert m. induction grants as [| g gs IH]; intros m; [reflexivity |].
  cbn [fold_left]. rewrite IH, vestingStep_seq, Hout. reflexivity.
Qed.

(** X8. The vesting schedule holds, for each year of the plan, the shares the
    grants vest in it (the sum of the positive per-grant amounts, in grant
    order) and has no entry for any other year. *)
Theorem calculateVestingSchedule_spec (grants : list RSUGrant.t) (startYear : Z)
    (projectionYears : nat) (y : Z) :
  calculateVestingSchedule grants startYear projectionYears y
  = if ((startYear <=? y)%Z && (y <? startYear + Z.of_nat projectionYears)%Z)%bool
    then Some (fst (vestingTotals grants y)) else None.
Proof.
  rewrite calculateVestingSchedule_fold, vestingTotals_fold.
  destruct ((startYear <=? y)%Z && (y <? startYear + Z.of_nat projectionYears)%Z)%bool eqn:Hin.
  - apply schedule_in; [exact Hin |]. rewrite fold_set_seq, Hin. reflexivity.
  - rewrite schedule_out by exact Hin. rewrite fold_set_seq, Hin. reflexivity.
Qed.

(** X9. Each year reported by [calculateRSUVestingByYear] vests exactly the
    shares [calculateVestingSchedule] lists for that year. *)
Theorem calculateVestingSchedule_vestingByYear (grants : list RSUGrant.t) (startYear : Z)
    (projectionYears : nat) (salaryByYear : NumMap)
    (sharePriceGrowthRate currentStockPrice pensionPercentage : Q) (has30PercentRuling : bool)
    (taxResults taxResultsWithoutRSU : option (list TaxResult.t)) (i : nat)
    (v : RSUVestingYear.t) :
  nth_error (calculateRSUVestingByYear grants startYear projectionYears salaryByYear
               sharePriceGrowthRate currentStockPrice pensionPercentage has30PercentRuling
               taxResults taxResultsWithoutRSU) i = Some v ->
  calculateVestingSchedule grants startYear projectionYears (RSUVestingYear.year v)
  = Some (RSUVestingYear.sharesVested v).
Proof.
  unfold calculateRSUVestingByYear. rewrite nth_error_map, nth_error_seq.
  destruct (Nat.ltb_spec i projectionYears) as [Hi | Hi]; [| discriminate].
  intros Hv; injection Hv as <-.
  destruct (vestingTotals grants (startYear + Z.of_nat i)) as [t w] eqn:Hvt.
  destruct (rsuVestingYearAt_fields grants startYear salaryByYear sharePriceGrowthRate
              currentStockPrice pensionPercentage has30PercentRuling taxResults
              taxResultsWithoutRSU i t w Hvt) as (Hy & Hs & _).
  rewrite Hy, Hs, calculateVestingSchedule_spec, Hvt.
  replace ((startYear <=? startYear + Z.of_nat i)%Z
           && (startYear + Z.of_nat i <? startYear + Z.of_nat projectionYears)%Z)%bool
    with true by (zcase; cbn; reflexivity || lia).
  reflexivity.
Qed.

Lemma calculateVestingSchedule_vestingByYear_witness :
  exists v,
    nth_error (calculateRSUVestingByYear (FinancialData.rsuGrants sampleData) 2025 3
                 salary2025 0.05 100 0.0338 false None None) 1 = Some v
    /\ calculateVestingSchedule (FinancialData.rsuGrants sampleData) 2025 3
         (RSUVestingYear.year v) = Some (RSUVestingYear.sharesVested v).
Proof.
  destruct (nth_error (calculateRSUVestingByYear (FinancialData.rsuGrants sampleData) 2025 3
              salary2025 0.05 100 0.0338 false None None) 1) as [v |] eqn:Hv;
    [| vm_compute in Hv; discriminate].
  exists v. split; [reflexivity |].
  apply (calculateVestingSchedule_vestingByYear _ _ _ _ _ _ _ _ _ _ 1 v Hv).
Defined.

Lemma vesting_partial_sum (grant : RSUGrant.t) (N : nat) :
  fold_left Qplus
    (map (fun k => calculateSharesVestingInYear grant (RSUGrant.grantYear grant + Z.of_nat k)%Z)
       (seq 0 N)) 0
  == inject_Z (Z.of_nat (Nat.min N (Z.to_nat (RSUGrant.vestingYears grant))))
     * (RSUGrant.grantShares grant * RSUGrant.vestingPercentagePerYear grant).
Proof.
  induction N as [| N IH]; [cbn [seq map fold_left]; rewrite Nat.min_0_l; symmetry; apply Qmult_0_l |].
  rewrite seq_S, map_app, fold_left_app, Nat.add_0_l. cbn [map fold_left].
  rewrite IH. unfold calculateSharesVestingInYear.
  replace (RSUGrant.grantYear grant + Z.of_nat N - RSUGrant.grantYear grant)%Z
    with (Z.of_nat N) by lia.
  destruct (Nat.ltb_spec N (Z.to_nat (RSUGrant.vestingYears grant))) as [Hl | Hl].
  - rewrite (Nat.min_l (S N)), (Nat.min_l N) by lia.
    replace ((Z.of_nat N <? 0)%Z || (RSUGrant.vestingYears grant <=? Z.of_nat N)%Z)%bool
      with false by (zcase; cbn; reflexivity || lia).
    rewrite Nat2Z.inj_succ, <- Z.add_1_r, inject_Z_plus. change (inject_Z 1) with 1. ring.
  - rewrite (Nat.min_r (S N)), (Nat.min_r N) by lia.
    replace ((Z.of_nat N <? 0)%Z || (RSUGrant.vestingYears grant <=? Z.of_nat N)%Z)%bool
      with true by (zcase; cbn; reflexivity || lia).
    lra.
Qed.

(** X10. Over any span of at least [vestingYears] years from its grant year, a
    grant vests [vestingYears * grantShares * vestingPercentagePerYear]
    shares in total (all its shares for the 4 x 25% grants the app creates). *)
Theorem sharesVesting_lifetime_total (grant : RSUGrant.t) (N : nat) :
  (0 <= RSUGrant.vestingYears grant)%Z -> (Z.to_nat (RSUGrant.vestingYears grant) <= N)%nat ->
  fold_left Qplus
    (map (fun k => calculateSharesVestingInYear grant (RSUGrant.grantYear grant + Z.of_nat k)%Z)
       (seq 0 N)) 0
  == inject_Z (RSUGrant.vestingYears grant)
     * (RSUGrant.grantShares grant * RSUGrant.vestingPercentagePerYear grant).
Proof.
  intros H0 HN. rewrite vesting_partial_sum, Nat.min_r by exact HN.
  rewrite Z2Nat.id by exact H0. reflexivity.
Qed.

Lemma sharesVesting_lifetime_total_witness :
  ((0 <= RSUGrant.vestingYears grant2024)%Z /\ (Z.to_nat (RSUGrant.vestingYears grant2024) <= 6)%nat)
  /\ fold_left Qplus
       (map (fun k => calculateSharesVestingInYear grant2024 (RSUGrant.grantYear grant2024 + Z.of_nat k)%Z)
          (seq 0 6)) 0
     == inject_Z (RSUGrant.vestingYears grant2024)
        * (RSUGrant.grantShares grant2024 * RSUGrant.vestingPercentagePerYear grant2024).
Proof.
  split; [split; vm_compute; [discriminate | repeat constructor] |].
  apply sharesVesting_lifetime_total; vm_compute; [discriminate | repeat constructor].
Defined.

Lemma vestingTotals_fst_nonneg (grants : list RSUGrant.t) (year : Z) (acc : Q * Q) :
  0 <= fst acc -> 0 <= fst (fold_left (vestingTotalsStep year) grants acc).
Proof.
  revert acc. induction grants as [| g gs IH]; intros [t w] Ht; [exact Ht |].
  cbn [fold_left]. apply IH. unfold vestingTotalsStep.
  destruct (Qltb 0 (calculateSharesVestingInYear g year)) eqn:E; cbn in *; [| exact Ht].
  unfold Qltb in E; apply negb_true_iff in E.
  apply not_true_iff_false in E; rewrite Qle_bool_iff in E; apply Qnot_le_lt in E. lra.
Qed.

Lemma vestingTotals_bounds (grants : list RSUGrant.t) (year : Z) (lo hi : Q) (acc : Q * Q) :
  Forall (fun grant => lo <= RSUGrant.sharePriceEur grant <= hi) grants ->
  0 <= fst acc -> lo * fst acc <= snd acc <= hi * fst acc ->
  let r := fold_left (vestingTotalsStep year) grants acc in
  0 <= fst r /\ lo * fst r <= snd r <= hi * fst r.
Proof.
  revert acc. induction grants as [| g gs IH]; intros [t w] Hall Ht Hw; cbn in *; [auto |].
  inversion Hall as [| ? ? Hg Hgs]; subst.
  destruct (Qltb 0 (calculateSharesVestingInYear g year)) eqn:E; [| apply IH; auto].
  unfold Qltb in E; apply negb_true_iff in E.
  apply not_true_iff_false in E; rewrite Qle_bool_iff in E; apply Qnot_le_lt in E.
  apply IH; auto; cbn; [lra | split; nra].
Qed.

(** X11. In every projection year the vested shares are nonnegative; with a
    nonnegative stock price and a growth rate of at least -100%, so are the
    vesting price and the gross RSU value; and in a year where shares vest,
    the average grant price lies within the range of the grants' prices. *)
Theorem rsuVestingYear_ranges (grants : list RSUGrant.t) (startYear : Z)
    (projectionYears : nat) (salaryByYear : NumMap)
    (sharePriceGrowthRate currentStockPrice pensionPercentage : Q) (has30PercentRuling : bool)
    (taxResults taxResultsWithoutRSU : option (list TaxResult.t)) (i : nat)
    (v : RSUVestingYear.t) (lo hi : Q) :
  nth_error (calculateRSUVestingByYear grants startYear projectionYears salaryByYear
               sharePriceGrowthRate currentStockPrice pensionPercentage has30PercentRuling
               taxResults taxResultsWithoutRSU) i = Some v ->
  0 <= RSUVestingYear.sharesVested v
  /\ (0 <= currentStockPrice -> 0 <= 1 + sharePriceGrowthRate ->
      0 <= RSUVestingYear.vestingPriceEur v /\ 0 <= RSUVestingYear.grossRSUValue v)
  /\ (Forall (fun grant => lo <= RSUGrant.sharePriceEur grant <= hi) grants ->
      0 < RSUVestingYear.sharesVested v ->
      lo <= RSUVestingYear.grantPriceAvg v <= hi).
Proof.
  unfold calculateRSUVestingByYear. rewrite nth_error_map, nth_error_seq.
  destruct (Nat.ltb_spec i projectionYears) as [Hi | Hi]; [| discriminate].
  intros Hv; injection Hv as <-.
  destruct (vestingTotals grants (startYear + Z.of_nat i)) as [t w] eqn:Hvt.
  destruct (rsuVestingYearAt_fields grants startYear salaryByYear sharePriceGrowthRate
              currentStockPrice pensionPercentage has30PercentRuling taxResults
              taxResultsWithoutRSU i t w Hvt) as (Hy & Hs & Ha & Hp & Hgr & _).
  assert (Ht : 0 <= t).
  { pose proof (vestingTotals_fst_nonneg grants (startYear + Z.of_nat i) (0, 0)
                  ltac:(cbn; lra)) as H0.
    rewrite <- vestingTotals_fold, Hvt in H0. exact H0. }
  split; [rewrite Hs; exact Ht | split].
  - intros Hcp Hg.
    assert (Hvp : 0 <= RSUVestingYear.vestingPriceEur
                    (rsuVestingYearAt grants startYear salaryByYear sharePriceGrowthRate
                       currentStockPrice pensionPercentage has30PercentRuling taxResults
                       taxResultsWithoutRSU i)).
    { rewrite Hp. apply Qmult_le_0_compat; [exact Hcp | apply Qpower_0_le; exact Hg]. }
    split; [exact Hvp |]. rewrite Hgr. apply Qmult_le_0_compat; assumption.
  - intros Hall Hpos. rewrite Hs in Hpos. rewrite Ha.
    pose proof (vestingTotals_bounds grants (startYear + Z.of_nat i) lo hi (0, 0) Hall
                  ltac:(cbn; lra) ltac:(cbn; lra)) as Hb.
    cbv zeta in Hb. rewrite <- vestingTotals_fold, Hvt in Hb. cbn in Hb.
    destruct Hb as (_ & Hlo & Hhi).
    unfold Qltb.
    replace (Qle_bool t 0) with false
      by (symmetry; apply not_true_iff_false; rewrite Qle_bool_iff; lra).
    cbn. split; [apply Qle_shift_div_l | apply Qle_shift_div_r]; auto; lra.
Qed.

Lemma rsuVestingYear_ranges_witness :
  exists v,
    nth_error (calculateRSUVestingByYear (FinancialData.rsuGrants sampleData) 2025 3
                 salary2025 0.05 100 0.0338 false None None) 1 = Some v
    /\ 0 < RSUVestingYear.sharesVested v
    /\ 100 <= RSUVestingYear.grantPriceAvg v <= 150.
Proof.
  destruct (nth_error (calculateRSUVestingByYear (FinancialData.rsuGrants sampleData) 2025 3
              salary2025 0.05 100 0.0338 false None None) 1) as [v |] eqn:Hv;
    [| vm_compute in Hv; discriminate].
  assert (Hall : Forall (fun grant => 100 <= RSUGrant.sharePriceEur grant <= 150)
                   (FinancialData.rsuGrants sampleData))
    by (repeat constructor; vm_compute; discriminate).
  assert (Hpos : 0 < RSUVestingYear.sharesVested v)
    by (injection Hv as <-; vm_compute; reflexivity).
  exists v. split; [reflexivity | split; [exact Hpos |]].
  exact (proj2 (proj2 (rsuVestingYear_ranges _ _ _ _ _ _ _ _ _ _ 1 v 100 150 Hv)) Hall Hpos).
Defined.

(** X12. A grant made by [createDefaultRSUGrant] or [createRefresherGrant] has
    [grantShares = grantValueEur / sharePriceEur] (it is left unchanged by
    [updateGrantShares]), and over any four or more years from its grant
    year it vests exactly its [grantShares]. *)
Theorem created_grants_vest_all_shares (grantYear : Z) (grantValue : Q) (N : nat) :
  (4 <= N)%nat ->
  let total g :=
    fold_left Qplus
      (map (fun k => calculateSharesVestingInYear g (RSUGrant.grantYear g + Z.of_nat k)%Z)
         (seq 0 N)) 0 in
  updateGrantShares (createDefaultRSUGrant grantYear) = createDefaultRSUGrant grantYear
  /\ updateGrantShares (createRefresherGrant grantYear grantValue)
     = createRefresherGrant grantYear grantValue
  /\ total (createDefaultRSUGrant grantYear)
     == RSUGrant.grantShares (createDefaultRSUGrant grantYear)
  /\ total (createRefresherGrant grantYear grantValue)
     == RSUGrant.grantShares (createRefresherGrant grantYear grantValue).
Proof.
  intros HN. cbv zeta. split; [reflexivity | split; [reflexivity |]].
  rewrite !vesting_partial_sum. cbn [RSUGrant.vestingYears RSUGrant.grantShares
                                    RSUGrant.vestingPercentagePerYear createDefaultRSUGrant
                                    createRefresherGrant].
  rewrite Nat.min_r by (cbn; lia). change (inject_Z (Z.of_nat (Z.to_nat 4))) with (4 : Q). split; lra.
Qed.

Lemma created_grants_vest_all_shares_witness :
  (4 <= 5)%nat /\
  fold_left Qplus
    (map (fun k => calculateSharesVestingInYear (createRefresherGrant 2025 60000)
                     (RSUGrant.grantYear (createRefresherGrant 2025 60000) + Z.of_nat k)%Z)
       (seq 0 5)) 0
  == RSUGrant.grantShares (createRefresherGrant 2025 60000).
Proof.
  split; [lia |].
  apply (created_grants_vest_all_shares 2025 60000 5); lia.
Defined.

(** X13. [updateRSUGrant] keeps the list length and every grant with another id;
    the grants with the id get the update merged in, and when the update
    sets the value or the price their shares are recomputed as value / price,
    otherwise the merged grant (with any [grantShares] the update gives) is
    kept as is. *)
Theorem updateRSUGrant_spec (id : string) (updates : RSUGrantUpdate.t)
    (rsuGrants : list RSUGrant.t) :
  List.length (updateRSUGrant id updates rsuGrants) = List.length rsuGrants
  /\ forall (k : nat) (grant : RSUGrant.t), nth_error rsuGrants k = Some grant ->
     exists grant', nth_error (updateRSUGrant id updates rsuGrants) k = Some grant'
     /\ (RSUGrant.id grant <> id -> grant' = grant)
     /\ (RSUGrant.id grant = id ->
         (RSUGrantUpdate.grantValueEur updates <> None
          \/ RSUGrantUpdate.sharePriceEur updates <> None) ->
         RSUGrant.grantShares grant'
         = RSUGrant.grantValueEur grant' / RSUGrant.sharePriceEur grant'
         /\ updateGrantShares grant' = grant'
         /\ grant' = updateGrantShares (mergeGrant grant updates))
     /\ (RSUGrant.id grant = id ->
         RSUGrantUpdate.grantValueEur updates = None ->
         RSUGrantUpdate.sharePriceEur updates = None ->
         grant' = mergeGrant grant updates).
Proof.
  split; [apply length_map |].
  intros k grant Hk. unfold updateRSUGrant. rewrite nth_error_map, Hk. cbn.
  eexists; split; [reflexivity |].
  destruct (String.eqb_spec (RSUGrant.id grant) id) as [Hid | Hid].
  - split; [intros Hn; contradiction |].
    split.
    + intros _ Hu.
      destruct (RSUGrantUpdate.grantValueEur updates) eqn:Hv;
        [split; [reflexivity | split; reflexivity] |].
      destruct (RSUGrantUpdate.sharePriceEur updates) eqn:Hp;
        [split; [reflexivity | split; reflexivity] |].
      destruct Hu; contradiction.
    + intros _ Hv Hp. rewrite Hv, Hp. reflexivity.
  - split; [reflexivity |].
    split; intros Hc; contradiction.
Qed.

Lemma updateRSUGrant_spec_witness :
  exists grant',
    nth_error (updateRSUGrant "grant-2025-refresher"
                 (RSUGrantUpdate.mk None None None (Some 60000) None None None None)
                 (FinancialData.rsuGrants sampleData)) 1 = Some grant'
    /\ RSUGrant.grantShares grant'
       = RSUGrant.grantValueEur grant' / RSUGrant.sharePriceEur grant'.
Proof.
  destruct (updateRSUGrant_spec "grant-2025-refresher"
              (RSUGrantUpdate.mk None None None (Some 60000) None None None None)
              (FinancialData.rsuGrants sampleData)) as [_ H].
  destruct (nth_error (FinancialData.rsuGrants sampleData) 1) as [g |] eqn:Hg;
    [| vm_compute in Hg; discriminate].
  destruct (H 1%nat g Hg) as (g' & Hg' & _ & Hm & _).
  exists g'. split; [exact Hg' |].
  apply Hm; [vm_compute in Hg; injection Hg as <-; reflexivity | left; discriminate].
Defined.

(** X14. Removing by id drops exactly the entries with that id, grants and
    expense categories alike: an entry is kept iff it was there and has
    another id. *)
Theorem remove_by_id_spec (id : string) (rsuGrants : list RSUGrant.t)
    (cats : list ExpenseCategory.t) :
  (forall grant, In grant (removeRSUGrant id rsuGrants)
                 <-> In grant rsuGrants /\ RSUGrant.id grant <> id)
  /\ (forall cat, In cat (removeExpenseCategory id cats)
                  <-> In cat cats /\ ExpenseCategory.id cat <> id).
Proof.
  split; intros x; unfold removeRSUGrant, removeExpenseCategory; rewrite filter_In;
    rewrite negb_true_iff, String.eqb_neq; reflexivity.
Qed.

(** ** Salary, expenses and metrics *)

(** X15. The salary and expense maps hold, for each year of the plan, the base
    amount grown by the yearly rate ([baseSalary * (1 + growth)^(y - start)],
    [12 * monthly total * (1 + inflation)^(y - start)]) and have no entry
    for any other year. *)
Theorem salary_expenses_maps (baseSalary salaryGrowthRate : Q)
    (expenseCategories : list ExpenseCategory.t) (expenseInflationRate : Q)
    (startYear : Z) (projectionYears : nat) (y : Z) :
  let inPlan := ((startYear <=? y)%Z && (y <? startYear + Z.of_nat projectionYears)%Z)%bool in
  calculateSalaryByYear baseSalary salaryGrowthRate startYear projectionYears y
  = (if inPlan then Some (baseSalary * Qpower (1 + salaryGrowthRate) (y - startYear))
     else None)
  /\ calculateYearlyExpenses expenseCategories expenseInflationRate startYear projectionYears y
  = (if inPlan then
       Some (fold_left (fun total c => total + ExpenseCategory.monthlyAmount c)
               expenseCategories 0 * 12
             * Qpower (1 + expenseInflationRate) (y - startYear))
     else None).
Proof.
  cbv zeta. unfold calculateSalaryByYear, calculateYearlyExpenses. cbv zeta.
  rewrite !fold_set_seq.
  destruct ((startYear <=? y)%Z && (y <? startYear + Z.of_nat projectionYears)%Z)%bool eqn:Hin;
    [| split; reflexivity].
  apply andb_prop in Hin as [H1 _]. apply Z.leb_le in H1.
  rewrite Z2Nat.id by lia. split; reflexivity.
Qed.

Lemma fold_smap_last {A : Type} (f : StrMap -> A -> StrMap) (key : A -> string)
    (val : A -> Q) (l : list A) (m : StrMap) (k : string) :
  (forall m a, f m a = smap_set m (key a) (val a)) ->
  fold_left f l m k
  = match find (fun a => String.eqb (key a) k) (rev l) with
    | Some a => Some (val a)
    | None => m k
    end.
Proof.
  intros Hf. induction l as [| a l IH] using rev_ind; [reflexivity |].
  rewrite fold_left_app, rev_app_distr. cbn. rewrite Hf. unfold smap_set.
  rewrite String.eqb_sym. destruct (String.eqb (key a) k); [reflexivity | exact IH].
Qed.

(** X16. In the expense and allocation breakdowns a name maps to the amount of
    the last entry with that name (earlier entries with the same name are
    overwritten), and a name no entry has is absent. *)
Theorem breakdowns_last_entry_wins (expenseCategories : list ExpenseCategory.t)
    (year startYear : Z) (expenseInflationRate totalValue : Q)
    (allocations : list (string * Q)) (name : string) :
  calculateExpenseBreakdown expenseCategories year startYear expenseInflationRate name
  = match find (fun c => String.eqb (ExpenseCategory.name c) name) (rev expenseCategories) with
    | Some c => Some (ExpenseCategory.monthlyAmount c * 12
                      * Qpower (1 + expenseInflationRate) (year - startYear))
    | None => None
    end
  /\ calculateAllocationBreakdown totalValue allocations name
  = match find (fun a => String.eqb (fst a) name) (rev allocations) with
    | Some a => Some (totalValue * snd a)
    | None => None
    end.
Proof.
  split.
  - unfold calculateExpenseBreakdown. cbv zeta.
    apply (fold_smap_last _ ExpenseCategory.name
             (fun c => ExpenseCategory.monthlyAmount c * 12
                       * Qpower (1 + expenseInflationRate) (year - startYear))).
    reflexivity.
  - unfold calculateAllocationBreakdown.
    apply (fold_smap_last _ fst (fun a => totalValue * snd a)).
    intros m [n p]; reflexivity.
Qed.

Lemma fold_sum_bounds {A : Type} (g : A -> Q) (l : list A) (a lo hi : Q) :
  Forall (fun x => lo <= g x <= hi) l ->
  a + inject_Z (Z.of_nat (List.length l)) * lo
  <= fold_left (fun sum x => sum + g x) l a
  <= a + inject_Z (Z.of_nat (List.length l)) * hi.
Proof.
  revert a. induction l as [| x l IH]; intros a Hall;
    [cbn [fold_left List.length]; change (inject_Z (Z.of_nat 0)) with 0; lra |].
  inversion Hall as [| ? ? Hx Hl]; subst. cbn [fold_left List.length].
  specialize (IH (a + g x) Hl).
  rewrite Nat2Z.inj_succ, <- Z.add_1_r, inject_Z_plus. change (inject_Z 1) with 1.
  split; nra.
Qed.

(** X17. Averages over the projection: an empty projection gives zeros; otherwise,
    when every year's savings rate lies in [lo, hi] the average savings rate
    does too, and likewise for the effective tax rate. *)
Theorem calculateAverageMetrics_bounds (financials : list YearlyFinancial.t)
    (lo hi lo' hi' : Q) :
  (financials = [] -> calculateAverageMetrics financials = mkAverageMetrics 0 0 0)
  /\ (financials <> [] ->
      Forall (fun f => lo <= YearlyFinancial.savingsRate f <= hi) financials ->
      Forall (fun f => lo' <= YearlyFinancial.effectiveTaxRate f <= hi') financials ->
      lo <= averageSavingsRate (calculateAverageMetrics financials) <= hi
      /\ lo' <= averageEffectiveTaxRate (calculateAverageMetrics financials) <= hi').
Proof.
  split; [intros ->; reflexivity |].
  intros Hne Hs He.
  destruct financials as [| f0 fs]; [contradiction |].
  set (l := f0 :: fs).
  assert (Hn : 0 < inject_Z (Z.of_nat (List.length l))).
  { subst l. cbn [List.length]. rewrite Nat2Z.inj_succ, <- Z.add_1_r, inject_Z_plus.
    change (inject_Z 1) with 1. assert (0 <= inject_Z (Z.of_nat (List.length fs))).
    { change 0 with (inject_Z 0). rewrite <- Zle_Qle. lia. }
    lra. }
  pose proof (fold_sum_bounds YearlyFinancial.savingsRate l 0 lo hi Hs) as Bs.
  pose proof (fold_sum_bounds YearlyFinancial.effectiveTaxRate l 0 lo' hi' He) as Be.
  cbn [calculateAverageMetrics averageSavingsRate averageEffectiveTaxRate].
  unfold l in *.
  split; split;
    first [ apply Qle_shift_div_l; [exact Hn | nra]
          | apply Qle_shift_div_r; [exact Hn | nra] ].
Qed.

Lemma calculateAverageMetrics_bounds_witness :
  let fs := [sampleFinancial2025;
             YearlyFinancial.mk 2026 90000 0 90000 62000 0 62000 8400 50000 20400
               (20400 / 70400) 0.31;
             YearlyFinancial.mk 2027 93000 12000 105000 64000 6500 70500 8700 52000 27200
               (27200 / 79200) 0.34] in
  (fs <> []
   /\ Forall (fun f => 0.25 <= YearlyFinancial.savingsRate f <= 0.5) fs
   /\ Forall (fun f => 0.3 <= YearlyFinancial.effectiveTaxRate f <= 0.34) fs)
  /\ 0.25 <= averageSavingsRate (calculateAverageMetrics fs) <= 0.5
  /\ 0.3 <= averageEffectiveTaxRate (calculateAverageMetrics fs) <= 0.34.
Proof.
  cbv zeta.
  match goal with |- (?a /\ ?b /\ ?c) /\ _ =>
    assert (Ha : a) by discriminate;
    assert (Hb : b) by (repeat constructor; vm_compute; discriminate);
    assert (Hc : c) by (repeat constructor; vm_compute; discriminate) end.
  split; [auto |].
  apply (proj2 (calculateAverageMetrics_bounds _ 0.25 0.5 0.3 0.34)); assumption.
Defined.

(** ** Investment and pension rolls *)

Lemma last_cons_default {A : Type} (x : A) (l : list A) (a b : A) :
  last (x :: l) a = last (x :: l) b.
Proof.
  revert x. induction l as [| y l IH]; intros x; [reflexivity |].
  change (last (y :: l) a = last (y :: l) b). apply IH.
Qed.

Lemma investmentLoop_length (s rate : Q) inc inv (fs : list YearlyFinancial.t) :
  forall i cur, List.length (investmentLoop s rate inc inv i fs cur) = List.length fs.
Proof. induction fs as [| f fs IH]; intros i cur; cbn; [reflexivity | rewrite IH; reflexivity]. Qed.

(** X18. Net-worth metrics of an investment projection: none for an empty
    projection; otherwise the final net worth is the last closing balance and
    the CAGR runs from the starting net worth over as many years as the
    projection has, so it is 0 whenever the starting net worth is not
    positive. *)
Theorem netWorthMetrics_of_projection (Math_pow : Q -> Q -> Q)
    (startingNetWorth annualReturnRate : Q) (yearlyFinancials : list YearlyFinancial.t)
    (incomeSettings : IncomeSettings.t) (investmentSettings : InvestmentSettings.t)
    (d : YearlyInvestment.t) :
  let ys := calculateInvestmentProjections startingNetWorth annualReturnRate yearlyFinancials
              incomeSettings investmentSettings in
  let m := calculateNetWorthMetrics Math_pow ys in
  (yearlyFinancials = [] -> m = mkNetWorthMetrics 0 0)
  /\ (yearlyFinancials <> [] ->
      finalNetWorth m = YearlyInvestment.closingBalance (last ys d)
      /\ netWorthCAGR m
         = calculateCAGR Math_pow startingNetWorth (finalNetWorth m)
             (inject_Z (Z.of_nat (List.length yearlyFinancials)))
      /\ (startingNetWorth <= 0 -> netWorthCAGR m = 0)).
Proof.
  cbv zeta. split; [intros ->; reflexivity |]. intros Hne.
  unfold calculateInvestmentProjections.
  destruct (investmentLoop startingNetWorth annualReturnRate incomeSettings investmentSettings 0
              yearlyFinancials startingNetWorth) as [| y0 ys] eqn:Hys.
  { destruct yearlyFinancials; [contradiction | discriminate]. }
  assert (Hop : YearlyInvestment.openingBalance y0 = startingNetWorth).
  { apply (investmentLoop_first startingNetWorth annualReturnRate incomeSettings
             investmentSettings yearlyFinancials 0 startingNetWorth).
    rewrite Hys. reflexivity. }
  assert (Hlen : List.length (y0 :: ys) = List.length yearlyFinancials).
  { rewrite <- Hys. apply investmentLoop_length. }
  cbn [calculateNetWorthMetrics finalNetWorth netWorthCAGR].
  rewrite Hop, Hlen.
  split; [| split; [reflexivity |]].
  - rewrite (last_cons_default y0 ys y0 d). reflexivity.
  - intros Hs. unfold calculateCAGR.
    replace (Qle_bool startingNetWorth 0) with true by (symmetry; apply Qle_bool_iff; exact Hs).
    reflexivity.
Qed.

Lemma nth_error_investmentLoop (s rate : Q) inc inv (fs : list YearlyFinancial.t) :
  forall i cur k y, nth_error (investmentLoop s rate inc inv i fs cur) k = Some y ->
  exists f cur', nth_error fs k = Some f /\ y = investmentYear s rate inc inv (i + k) f cur'.
Proof.
  induction fs as [| f fs IH]; intros i cur k y Hk; [destruct k; discriminate |].
  destruct k as [| k]; cbn in Hk.
  - injection Hk as <-. exists f, cur. rewrite Nat.add_0_r. split; reflexivity.
  - destruct (IH _ _ _ _ Hk) as (f' & cur' & Hf & ->). exists f', cur'.
    rewrite Nat.add_succ_comm. split; [exact Hf | reflexivity].
Qed.

(** X19. Every year of the investment projection follows its financial year, puts
    in a nonnegative monthly-savings contribution (a savings shortfall is
    floored at 0, never drawn from the portfolio), invests the whole net RSU
    value, splits its contributions into cash plus RSU, and reports a
    cumulative ROI of 0 when the starting net worth is not positive. *)
Theorem investmentProjection_entries (startingNetWorth annualReturnRate : Q)
    (yearlyFinancials : list YearlyFinancial.t) (incomeSettings : IncomeSettings.t)
    (investmentSettings : InvestmentSettings.t) (k : nat) (y : YearlyInvestment.t) :
  nth_error (calculateInvestmentProjections startingNetWorth annualReturnRate yearlyFinancials
               incomeSettings investmentSettings) k = Some y ->
  exists f, nth_error yearlyFinancials k = Some f
  /\ YearlyInvestment.year y = YearlyFinancial.year f
  /\ YearlyInvestment.rsuContributions y = YearlyFinancial.netRSUValue f
  /\ 0 <= YearlyInvestment.monthlySavingsContributions y
  /\ YearlyInvestment.contributions y
     = YearlyInvestment.cashContributions y + YearlyInvestment.rsuContributions y
  /\ (startingNetWorth <= 0 -> YearlyInvestment.cumulativeROI y = 0).
Proof.
  intros Hk. destruct (nth_error_investmentLoop _ _ _ _ _ _ _ _ _ Hk) as (f & cur & Hf & ->).
  exists f. split; [exact Hf |].
  unfold investmentYear; cbn [YearlyInvestment.year YearlyInvestment.rsuContributions
    YearlyInvestment.monthlySavingsContributions YearlyInvestment.contributions
    YearlyInvestment.cashContributions YearlyInvestment.cumulativeROI].
  split; [reflexivity | split; [reflexivity | split; [apply Math_max_l | split; [reflexivity |]]]].
  intros Hs. unfold Qltb.
  replace (Qle_bool startingNetWorth 0) with true by (symmetry; apply Qle_bool_iff; exact Hs).
  reflexivity.
Qed.

Lemma investmentProjection_entries_witness :
  exists y,
    nth_error (calculateInvestmentProjections 0 0.07
                 (FinancialProjections.yearlyFinancials (recalculate highPensionData))
                 (FinancialData.incomeSettings highPensionData)
                 (FinancialData.investmentSettings highPensionData)) 0 = Some y
    /\ 0 <= YearlyInvestment.monthlySavingsContributions y.
Proof.
  destruct (nth_error (calculateInvestmentProjections 0 0.07
              (FinancialProjections.yearlyFinancials (recalculate highPensionData))
              (FinancialData.incomeSettings highPensionData)
              (FinancialData.investmentSettings highPensionData)) 0) as [y |] eqn:Hy;
    [| vm_compute in Hy; discriminate].
  exists y. split; [reflexivity |].
  destruct (investmentProjection_entries _ _ _ _ _ 0 y Hy) as (f & _ & _ & _ & H & _).
  exact H.
Defined.

Lemma investmentLoop_nondecreasing (s rate : Q) inc inv (fs : list YearlyFinancial.t) :
  0 <= rate ->
  forall i cur, 0 <= cur ->
  Forall (fun y => 0 <= YearlyInvestment.contributions y) (investmentLoop s rate inc inv i fs cur) ->
  Forall (fun y => 0 <= YearlyInvestment.openingBalance y
                   /\ YearlyInvestment.openingBalance y + YearlyInvestment.contributions y
                      <= YearlyInvestment.closingBalance y)
    (investmentLoop s rate inc inv i fs cur).
Proof.
  intros Hr. induction fs as [| f fs IH]; intros i cur Hcur Hall; [constructor |].
  cbn [investmentLoop] in Hall |- *. inversion Hall as [| ? ? Hc Hrest]; subst.
  set (y := investmentYear s rate inc inv i f cur) in *.
  assert (Ho : YearlyInvestment.openingBalance y = cur) by reflexivity.
  assert (Hcl : YearlyInvestment.closingBalance y
                = YearlyInvestment.openingBalance y + YearlyInvestment.contributions y
                  + (YearlyInvestment.openingBalance y + YearlyInvestment.contributions y / 2)
                    * rate) by reflexivity.
  assert (Hstep : 0 <= YearlyInvestment.openingBalance y
                  /\ YearlyInvestment.openingBalance y + YearlyInvestment.contributions y
                     <= YearlyInvestment.closingBalance y).
  { rewrite Hcl, Ho. split; [exact Hcur |].
    assert (0 <= (cur + YearlyInvestment.contributions y / 2) * rate)
      by (apply Qmult_le_0_compat; [| exact Hr];
          assert (0 <= YearlyInvestment.contributions y / 2)
            by (apply Qle_shift_div_l; lra); lra).
    lra. }
  constructor; [exact Hstep |].
  apply IH; [destruct Hstep; lra | exact Hrest].
Qed.

(** X20. With a nonnegative starting net worth and return rate, as long as no
    year's contributions are negative the investment balance never goes
    below 0 and every year closes at least at its opening balance plus its
    contributions. *)
Theorem investment_balance_nondecreasing (startingNetWorth annualReturnRate : Q)
    (yearlyFinancials : list YearlyFinancial.t) (incomeSettings : IncomeSettings.t)
    (investmentSettings : InvestmentSettings.t) :
  0 <= startingNetWorth -> 0 <= annualReturnRate ->
  Forall (fun y => 0 <= YearlyInvestment.contributions y)
    (calculateInvestmentProjections startingNetWorth annualReturnRate yearlyFinancials
       incomeSettings investmentSettings) ->
  Forall (fun y => 0 <= YearlyInvestment.openingBalance y
                   /\ YearlyInvestment.openingBalance y + YearlyInvestment.contributions y
                      <= YearlyInvestment.closingBalance y)
    (calculateInvestmentProjections startingNetWorth annualReturnRate yearlyFinancials
       incomeSettings investmentSettings).
Proof.
  intros Hs Hr Hall. apply investmentLoop_nondecreasing; assumption.
Qed.

Lemma investment_balance_nondecreasing_witness :
  let ys := calculateInvestmentProjections 20000 0.07 [sampleFinancial2025; sampleFinancial2025]
              (FinancialData.incomeSettings sampleData)
              (FinancialData.investmentSettings sampleData) in
  (0 <= 20000 /\ 0 <= 0.07 /\ Forall (fun y => 0 <= YearlyInvestment.contributions y) ys)
  /\ Forall (fun y => 0 <= YearlyInvestment.openingBalance y
                      /\ YearlyInvestment.openingBalance y + YearlyInvestment.contributions y
                         <= YearlyInvestment.closingBalance y) ys.
Proof.
  cbv zeta.
  match goal with |- (_ /\ _ /\ ?c) /\ _ =>
    assert (Hc : c) by (apply Forall_forall; intros y Hy; vm_compute in Hy;
                        destruct Hy as [<- | [<- | []]]; vm_compute; discriminate) end.
  split; [split; [lra | split; [lra | exact Hc]] |].
  apply investment_balance_nondecreasing; [lra | lra | exact Hc].
Defined.

(** X21. The pension projection fails (the source throws on a missing
    [taxResults[i]]) exactly when there are fewer tax results than yearly
    financials; otherwise it has one year per yearly financial. *)
Theorem calculatePensionProjections_defined (startingPensionBalance pensionReturnRate : Q)
    (yearlyFinancials : list YearlyFinancial.t) (taxResults : list TaxResult.t) :
  (calculatePensionProjections startingPensionBalance pensionReturnRate yearlyFinancials
     taxResults = None
   <-> (List.length taxResults < List.length yearlyFinancials)%nat)
  /\ forall res,
     calculatePensionProjections startingPensionBalance pensionReturnRate yearlyFinancials
       taxResults = Some res ->
     List.length res = List.length yearlyFinancials.
Proof.
  unfold calculatePensionProjections. revert taxResults startingPensionBalance.
  induction yearlyFinancials as [| f fs IH]; intros trs cur.
  - cbn. split; [split; [discriminate | lia] |]. intros res H; injection H as <-; reflexivity.
  - destruct trs as [| tr trs]; cbn.
    + split; [split; [lia | reflexivity] |]. discriminate.
    + destruct (IH trs (YearlyPension.closingBalance (pensionYear pensionReturnRate f tr cur)))
        as [[H1 H2] H3].
      destruct (pensionLoop pensionReturnRate fs trs _) as [rs |] eqn:Hrs.
      * split; [split; [discriminate | intros Hl; specialize (H2 ltac:(lia)); discriminate] |].
        intros res H; injection H as <-. cbn. f_equal. apply H3; reflexivity.
      * split; [split; [intros _; specialize (H1 eq_refl); lia | reflexivity] |]. discriminate.
Qed.

Lemma pensionLoop_nondecreasing (rate : Q) (fs : list YearlyFinancial.t) :
  0 <= rate ->
  forall trs cur res, 0 <= cur -> pensionLoop rate fs trs cur = Some res ->
  Forall (fun y => 0 <= YearlyPension.employeeContributions y
                        + YearlyPension.employerContributions y) res ->
  Forall (fun y => 0 <= YearlyPension.openingBalance y
                   /\ YearlyPension.openingBalance y + YearlyPension.employeeContributions y
                      + YearlyPension.employerContributions y
                      <= YearlyPension.closingBalance y) res.
Proof.
  intros Hr. induction fs as [| f fs IH]; intros trs cur res Hcur Hl Hall.
  - injection Hl as <-. constructor.
  - destruct trs as [| tr trs]; [discriminate |]. cbn [pensionLoop] in Hl.
    set (y := pensionYear rate f tr cur) in *.
    destruct (pensionLoop rate fs trs (YearlyPension.closingBalance y)) as [rs |] eqn:Hrs;
      [| discriminate].
    injection Hl as <-. inversion Hall as [| ? ? Hc Hrest]; subst.
    assert (Ho : YearlyPension.openingBalance y = cur) by reflexivity.
    assert (Hcl : YearlyPension.closingBalance y
                  = YearlyPension.openingBalance y
                    + (YearlyPension.employeeContributions y + YearlyPension.employerContributions y)
                    + (YearlyPension.openingBalance y
                       + (YearlyPension.employeeContributions y
                          + YearlyPension.employerContributions y) / 2) * rate)
      by reflexivity.
    set (c := YearlyPension.employeeContributions y + YearlyPension.employerContributions y)
      in *.
    assert (Hstep : 0 <= YearlyPension.openingBalance y
                    /\ YearlyPension.openingBalance y + YearlyPension.employeeContributions y
                       + YearlyPension.employerContributions y
                       <= YearlyPension.closingBalance y).
    { rewrite Hcl, Ho. split; [exact Hcur |].
      assert (0 <= c / 2) by (apply Qle_shift_div_l; lra).
      assert (0 <= (cur + c / 2) * rate) by (apply Qmult_le_0_compat; lra).
      unfold c in *. lra. }
    constructor; [exact Hstep |].
    apply (IH trs (YearlyPension.closingBalance y)); [destruct Hstep; unfold c in Hc; lra | exact Hrs | exact Hrest].
Qed.

(** X22. With a nonnegative starting balance and return rate, as long as no
    year's employee plus employer contribution is negative, the pension
    balance never goes below 0 and every year closes at least at its opening
    balance plus its contributions. *)
Theorem pension_balance_nondecreasing (startingPensionBalance pensionReturnRate : Q)
    (yearlyFinancials : list YearlyFinancial.t) (taxResults : list TaxResult.t)
    (res : list YearlyPension.t) :
  0 <= startingPensionBalance -> 0 <= pensionReturnRate ->
  calculatePensionProjections startingPensionBalance pensionReturnRate yearlyFinancials
    taxResults = Some res ->
  Forall (fun y => 0 <= YearlyPension.employeeContributions y
                        + YearlyPension.employerContributions y) res ->
  Forall (fun y => 0 <= YearlyPension.openingBalance y
                   /\ YearlyPension.openingBalance y + YearlyPension.employeeContributions y
                      + YearlyPension.employerContributions y
                      <= YearlyPension.closingBalance y) res.
Proof.
  intros Hs Hr Hl Hall. exact (pensionLoop_nondecreasing _ _ Hr _ _ _ Hs Hl Hall).
Qed.

Lemma pension_balance_nondecreasing_witness :
  exists res,
    (0 <= 10000 /\ 0 <= 0.05
     /\ calculatePensionProjections 10000 0.05 [sampleFinancial2025] [taxWith2025] = Some res
     /\ Forall (fun y => 0 <= YearlyPension.employeeContributions y
                              + YearlyPension.employerContributions y) res)
    /\ Forall (fun y => 0 <= YearlyPension.openingBalance y
                        /\ YearlyPension.openingBalance y + YearlyPension.employeeContributions y
                           + YearlyPension.employerContributions y
                           <= YearlyPension.closingBalance y) res.
Proof.
  destruct (calculatePensionProjections 10000 0.05 [sampleFinancial2025] [taxWith2025])
    as [res |] eqn:Hl; [| vm_compute in Hl; discriminate].
  assert (Hc : Forall (fun y => 0 <= YearlyPension.employeeContributions y
                                     + YearlyPension.employerContributions y) res).
  { apply Forall_forall; intros y Hy. vm_compute in Hl. injection Hl as <-.
    destruct Hy as [<- | []]; vm_compute; discriminate. }
  exists res. split; [repeat split; try lra; exact Hc |].
  apply (pension_balance_nondecreasing 10000 0.05 [sampleFinancial2025] [taxWith2025] res); [lra | lra | exact Hl | exact Hc].
Defined.

(** ** The pipeline of [recalculate] *)

Lemma pensionLoop_some (rate : Q) (fs : list YearlyFinancial.t) :
  forall trs cur, (List.length fs <= List.length trs)%nat ->
  exists res, pensionLoop rate fs trs cur = Some res /\ List.length res = List.length fs.
Proof.
  induction fs as [| f fs IH]; intros trs cur Hl; [exists []; split; reflexivity |].
  destruct trs as [| tr trs]; cbn in Hl; [lia |].
  destruct (IH trs (YearlyPension.closingBalance (pensionYear rate f tr cur)) ltac:(lia))
    as (rs & Hrs & Hlen).
  cbn [pensionLoop]. rewrite Hrs. eexists; split; [reflexivity | cbn; rewrite Hlen; reflexivity].
Qed.

Lemma recalculate_fields (data : FinancialData.t) :
  let inc := FinancialData.incomeSettings data in
  let inv := FinancialData.investmentSettings data in
  let plan := FinancialData.planningSettings data in
  let startYear := PlanningSettings.startYear plan in
  let n := PlanningSettings.projectionYears plan in
  let salaryByYear := calculateSalaryByYear (IncomeSettings.baseSalary inc)
                        (IncomeSettings.salaryGrowthRate inc) startYear n in
  let rsuVestingInitial :=
    calculateRSUVestingByYear (FinancialData.rsuGrants data) startYear n salaryByYear
      (InvestmentSettings.sharePriceGrowthRate inv) (InvestmentSettings.currentStockPrice inv)
      (IncomeSettings.pensionPercentage inc) (IncomeSettings.has30PercentRuling inc) None None in
  let taxes := map (recalculateTaxesAt inc startYear salaryByYear rsuVestingInitial) (seq 0 n) in
  let p := recalculate data in
  FinancialProjections.taxResults p = map fst taxes
  /\ FinancialProjections.rsuVestingByYear p
     = calculateRSUVestingByYear (FinancialData.rsuGrants data) startYear n salaryByYear
         (InvestmentSettings.sharePriceGrowthRate inv) (InvestmentSettings.currentStockPrice inv)
         (IncomeSettings.pensionPercentage inc) (IncomeSettings.has30PercentRuling inc)
         (Some (map fst taxes)) (Some (map snd taxes))
  /\ FinancialProjections.yearlyFinancials p
     = calculateFinancialProjections inc plan (FinancialData.expenseCategories data)
         (map fst taxes) (FinancialProjections.rsuVestingByYear p) (Some (map snd taxes))
  /\ FinancialProjections.yearlyInvestments p
     = calculateInvestmentProjections (InvestmentSettings.startingNetWorth inv)
         (InvestmentSettings.annualReturnRate inv) (FinancialProjections.yearlyFinancials p)
         inc inv
  /\ FinancialProjections.yearlyPension p
     = calculatePensionProjections (InvestmentSettings.startingPensionBalance inv)
         (InvestmentSettings.pensionReturnRate inv) (FinancialProjections.yearlyFinancials p)
         (map fst taxes).
Proof. repeat split. Qed.

(** X23. [recalculate] produces one entry per projection year in every series,
    and its pension projection never hits the missing-tax-result failure. *)
Theorem recalculate_lengths (data : FinancialData.t) :
  let n := PlanningSettings.projectionYears (FinancialData.planningSettings data) in
  let p := recalculate data in
  List.length (FinancialProjections.taxResults p) = n
  /\ List.length (FinancialProjections.rsuVestingByYear p) = n
  /\ List.length (FinancialProjections.yearlyFinancials p) = n
  /\ List.length (FinancialProjections.yearlyInvestments p) = n
  /\ exists ps, FinancialProjections.yearlyPension p = Some ps /\ List.length ps = n.
Proof.
  destruct (recalculate_fields data) as (Ht & Hr & Hf & Hi & Hp).
  cbv zeta in *.
  assert (Hlt : List.length (FinancialProjections.taxResults (recalculate data))
                = PlanningSettings.projectionYears (FinancialData.planningSettings data))
    by (rewrite Ht, !length_map, length_seq; reflexivity).
  assert (Hlr : List.length (FinancialProjections.rsuVestingByYear (recalculate data))
                = PlanningSettings.projectionYears (FinancialData.planningSettings data))
    by (rewrite Hr; unfold calculateRSUVestingByYear; rewrite length_map, length_seq;
        reflexivity).
  assert (Hlf : List.length (FinancialProjections.yearlyFinancials (recalculate data))
                = PlanningSettings.projectionYears (FinancialData.planningSettings data))
    by (rewrite Hf; unfold calculateFinancialProjections; rewrite length_map, length_seq;
        reflexivity).
  split; [exact Hlt | split; [exact Hlr | split; [exact Hlf | split]]].
  - rewrite Hi. unfold calculateInvestmentProjections. rewrite investmentLoop_length. exact Hlf.
  - rewrite Hp. unfold calculatePensionProjections. rewrite <- Ht.
    destruct (pensionLoop_some (InvestmentSettings.pensionReturnRate
                                  (FinancialData.investmentSettings data))
                (FinancialProjections.yearlyFinancials (recalculate data))
                (FinancialProjections.taxResults (recalculate data))
                (InvestmentSettings.startingPensionBalance
                   (FinancialData.investmentSettings data)) ltac:(lia))
      as (ps & Hps & Hlen).
    exists ps. split; [exact Hps | lia].
Qed.

Lemma rsuVestingYearAt_gross_indep grants startYear salaryByYear sharePriceGrowthRate
    currentStockPrice pensionPercentage has30PercentRuling a b c d (i : nat) :
  RSUVestingYear.grossRSUValue
    (rsuVestingYearAt grants startYear salaryByYear sharePriceGrowthRate currentStockPrice
       pensionPercentage has30PercentRuling a b i)
  = RSUVestingYear.grossRSUValue
      (rsuVestingYearAt grants startYear salaryByYear sharePriceGrowthRate currentStockPrice
         pensionPercentage has30PercentRuling c d i).
Proof.
  destruct (vestingTotals grants (startYear + Z.of_nat i)) as [t w] eqn:Hv.
  destruct (rsuVestingYearAt_fields grants startYear salaryByYear sharePriceGrowthRate
              currentStockPrice pensionPercentage has30PercentRuling a b i t w Hv)
    as (Hy1 & _ & _ & Hp1 & Hg1 & _).
  destruct (rsuVestingYearAt_fields grants startYear salaryByYear sharePriceGrowthRate
              currentStockPrice pensionPercentage has30PercentRuling c d i t w Hv)
    as (Hy2 & _ & _ & Hp2 & Hg2 & _).
  rewrite Hg1, Hg2, Hp1, Hp2, Hy1, Hy2. reflexivity.
Qed.

Lemma rsuVestingYearAt_exact grants startYear salaryByYear sharePriceGrowthRate
    currentStockPrice pensionPercentage has30PercentRuling tr trw (i : nat) r rw :
  nth_error tr i = Some r -> nth_error trw i = Some rw ->
  let y := rsuVestingYearAt grants startYear salaryByYear sharePriceGrowthRate
             currentStockPrice pensionPercentage has30PercentRuling (Some tr) (Some trw) i in
  RSUVestingYear.taxPaid y = TaxResult.totalTax r - TaxResult.totalTax rw
  /\ RSUVestingYear.netRSUValue y = RSUVestingYear.grossRSUValue y - RSUVestingYear.taxPaid y.
Proof.
  intros Hr Hrw. cbv zeta. unfold rsuVestingYearAt. rewrite Hr, Hrw.
  destruct (vestingTotals grants _) as [t w]. split; reflexivity.
Qed.

Lemma calculateTax_netIncome (grossIncome pensionPercentage : Q) (has30PercentRuling : bool)
    (year : Z) (taxConfig : TaxConfig.t) (pensionContributionsOverride : option Q) :
  TaxResult.netIncome (calculateTax grossIncome pensionPercentage has30PercentRuling year
                         taxConfig pensionContributionsOverride)
  = grossIncome - TaxResult.totalTax (calculateTax grossIncome pensionPercentage
                                        has30PercentRuling year taxConfig
                                        pensionContributionsOverride).
Proof. reflexivity. Qed.

Lemma nth_error_pensionLoop (rate : Q) (fs : list YearlyFinancial.t) :
  forall trs cur res k pe, pensionLoop rate fs trs cur = Some res -> nth_error res k = Some pe ->
  exists tr, nth_error trs k = Some tr
  /\ YearlyPension.employeeContributions pe = TaxResult.pensionContributions tr.
Proof.
  induction fs as [| f fs IH]; intros trs cur res k pe Hl Hk.
  - injection Hl as <-. destruct k; discriminate.
  - destruct trs as [| tr trs]; [discriminate |]. cbn [pensionLoop] in Hl.
    destruct (pensionLoop rate fs trs _) as [rs |] eqn:Hrs; [| discriminate].
    injection Hl as <-. destruct k as [| k].
    + injection Hk as <-. exists tr. split; reflexivity.
    + exact (IH _ _ _ _ _ Hrs Hk).
Qed.

Lemma salary_at (baseSalary salaryGrowthRate : Q) (startYear : Z) (n i : nat) :
  (i < n)%nat ->
  map_get_or0 (calculateSalaryByYear baseSalary salaryGrowthRate startYear n)
    (startYear + Z.of_nat i)%Z
  = baseSalary * Qpower (1 + salaryGrowthRate) (Z.of_nat i).
Proof.
  intros Hi. unfold map_get_or0, calculateSalaryByYear. cbv zeta. rewrite fold_set_seq.
  replace ((startYear <=? startYear + Z.of_nat i)%Z
           && (startYear + Z.of_nat i <? startYear + Z.of_nat n)%Z)%bool
    with true by (zcase; cbn; reflexivity || lia).
  replace (startYear + Z.of_nat i - startYear)%Z with (Z.of_nat i) by lia.
  rewrite Nat2Z.id. reflexivity.
Qed.

(** X24. In each projection year [i] of [recalculate], the yearly financials agree
    with the tax result of that year: the total gross income is the gross
    income taxed, the total net income is the tax result's net income plus
    the yearly healthcare benefit (the salary-only net plus the RSU net add
    up to it), and the pension series books as employee contribution the
    tax result's pension contribution, [baseSalary * (1 + growth)^i *
    pensionPercentage]: bonus, holiday allowance and RSU carry no pension. *)
Theorem recalculate_year_consistency (data : FinancialData.t) (i : nat) :
  (i < PlanningSettings.projectionYears (FinancialData.planningSettings data))%nat ->
  let inc := FinancialData.incomeSettings data in
  let p := recalculate data in
  exists tr f ps pe,
    nth_error (FinancialProjections.taxResults p) i = Some tr
    /\ nth_error (FinancialProjections.yearlyFinancials p) i = Some f
    /\ FinancialProjections.yearlyPension p = Some ps
    /\ nth_error ps i = Some pe
    /\ TaxResult.grossIncome tr = YearlyFinancial.totalGrossIncome f
    /\ YearlyFinancial.totalNetIncome f
       == TaxResult.netIncome tr + IncomeSettings.healthcareBenefitMonthly inc * 12
    /\ YearlyPension.employeeContributions pe = TaxResult.pensionContributions tr
    /\ TaxResult.pensionContributions tr
       = IncomeSettings.baseSalary inc * Qpower (1 + IncomeSettings.salaryGrowthRate inc) (Z.of_nat i)
         * IncomeSettings.pensionPercentage inc.
Proof.
  intros Hi. cbv zeta.
  destruct (recalculate_fields data) as (Ht & Hr & Hf & _ & Hp). cbv zeta in Ht, Hr, Hf, Hp.
  set (inc := FinancialData.incomeSettings data) in *.
  set (inv := FinancialData.investmentSettings data) in *.
  set (plan := FinancialData.planningSettings data) in *.
  set (startYear := PlanningSettings.startYear plan) in *.
  set (n := PlanningSettings.projectionYears plan) in *.
  set (sal := calculateSalaryByYear (IncomeSettings.baseSalary inc)
                (IncomeSettings.salaryGrowthRate inc) startYear n) in *.
  set (rv0 := calculateRSUVestingByYear (FinancialData.rsuGrants data) startYear n sal
                (InvestmentSettings.sharePriceGrowthRate inv)
                (InvestmentSettings.currentStockPrice inv)
                (IncomeSettings.pensionPercentage inc)
                (IncomeSettings.has30PercentRuling inc) None None) in *.
  set (taxes := map (recalculateTaxesAt inc startYear sal rv0) (seq 0 n)) in *.
  assert (Htax : nth_error taxes i = Some (recalculateTaxesAt inc startYear sal rv0 i)).
  { unfold taxes. rewrite nth_error_map, nth_error_seq.
    destruct (Nat.ltb_spec i n); [reflexivity | lia]. }
  assert (Htr : nth_error (map fst taxes) i = Some (fst (recalculateTaxesAt inc startYear sal rv0 i)))
    by (rewrite nth_error_map, Htax; reflexivity).
  assert (Htrw : nth_error (map snd taxes) i
                 = Some (snd (recalculateTaxesAt inc startYear sal rv0 i)))
    by (rewrite nth_error_map, Htax; reflexivity).
  (* the pension series *)
  assert (Hlf : List.length (FinancialProjections.yearlyFinancials (recalculate data)) = n)
    by (rewrite Hf; unfold calculateFinancialProjections; rewrite length_map, length_seq;
        reflexivity).
  assert (Hlt : List.length (map fst taxes) = n)
    by (unfold taxes; rewrite !length_map, length_seq; reflexivity).
  destruct (pensionLoop_some (InvestmentSettings.pensionReturnRate inv)
              (FinancialProjections.yearlyFinancials (recalculate data)) (map fst taxes)
              (InvestmentSettings.startingPensionBalance inv) ltac:(lia)) as (ps & Hps & Hlps).
  destruct (nth_error ps i) as [pe |] eqn:Hpe;
    [| apply nth_error_None in Hpe; lia].
  destruct (nth_error_pensionLoop _ _ _ _ _ _ _ Hps Hpe) as (tr' & Htr' & Hemp).
  rewrite Htr in Htr'. injection Htr' as <-.
  (* the yearly financial of year i *)
  set (rv := FinancialProjections.rsuVestingByYear (recalculate data)) in *.
  set (f := yearlyFinancialAt inc plan sal
              (calculateYearlyExpenses (FinancialData.expenseCategories data)
                 (PlanningSettings.expenseInflationRate plan) startYear n)
              (map fst taxes) rv (Some (map snd taxes)) i).
  assert (Hfi : nth_error (FinancialProjections.yearlyFinancials (recalculate data)) i = Some f).
  { rewrite Hf. unfold calculateFinancialProjections. rewrite nth_error_map, nth_error_seq.
    fold n. destruct (Nat.ltb_spec i n); [reflexivity | lia]. }
  exists (fst (recalculateTaxesAt inc startYear sal rv0 i)), f, ps, pe.
  rewrite Ht, Hp. fold inv.
  split; [exact Htr | split; [exact Hfi | split; [exact Hps | split; [exact Hpe |]]]].
  (* the RSU entry of year i, both passes *)
  assert (Hrv0 : nth_error rv0 i = Some (rsuVestingYearAt (FinancialData.rsuGrants data) startYear
                   sal (InvestmentSettings.sharePriceGrowthRate inv)
                   (InvestmentSettings.currentStockPrice inv)
                   (IncomeSettings.pensionPercentage inc)
                   (IncomeSettings.has30PercentRuling inc) None None i))
    by (apply nth_error_calculateRSUVestingByYear; exact Hi).
  assert (Hrv : nth_error rv i = Some (rsuVestingYearAt (FinancialData.rsuGrants data) startYear
                  sal (InvestmentSettings.sharePriceGrowthRate inv)
                  (InvestmentSettings.currentStockPrice inv)
                  (IncomeSettings.pensionPercentage inc)
                  (IncomeSettings.has30PercentRuling inc)
                  (Some (map fst taxes)) (Some (map snd taxes)) i))
    by (rewrite Hr; apply nth_error_calculateRSUVestingByYear; exact Hi).
  destruct (rsuVestingYearAt_exact (FinancialData.rsuGrants data) startYear sal
              (InvestmentSettings.sharePriceGrowthRate inv)
              (InvestmentSettings.currentStockPrice inv) (IncomeSettings.pensionPercentage inc)
              (IncomeSettings.has30PercentRuling inc) (map fst taxes) (map snd taxes) i
              _ _ Htr Htrw) as [Hpaid Hnet].
  pose proof (rsuVestingYearAt_gross_indep (FinancialData.rsuGrants data) startYear sal
                (InvestmentSettings.sharePriceGrowthRate inv)
                (InvestmentSettings.currentStockPrice inv) (IncomeSettings.pensionPercentage inc)
                (IncomeSettings.has30PercentRuling inc)
                (Some (map fst taxes)) (Some (map snd taxes)) None None i) as Hgross.
  split; [| split; [| split; [exact Hemp |]]].
  - unfold f, yearlyFinancialAt, field_or0. rewrite Hrv, Hgross.
    unfold recalculateTaxesAt, field_or0. rewrite Hrv0. reflexivity.
  - unfold f, yearlyFinancialAt, field_or0. rewrite Htrw, Hrv. cbv zeta.
    cbn [YearlyFinancial.totalNetIncome].
    rewrite Hnet, Hpaid, Hgross.
    unfold recalculateTaxesAt, field_or0. rewrite Hrv0. cbv zeta.
    cbn [fst snd]. rewrite !calculateTax_netIncome. lra.
  - unfold recalculateTaxesAt. cbn [fst calculateTax TaxResult.pensionContributions].
    unfold sal, n, startYear. rewrite salary_at by exact Hi. reflexivity.
Qed.

Lemma recalculate_year_consistency_witness :
  (0 < PlanningSettings.projectionYears (FinancialData.planningSettings highPensionData))%nat
  /\ exists tr f ps pe,
    nth_error (FinancialProjections.taxResults (recalculate highPensionData)) 0 = Some tr
    /\ nth_error (FinancialProjections.yearlyFinancials (recalculate highPensionData)) 0 = Some f
    /\ FinancialProjections.yearlyPension (recalculate highPensionData) = Some ps
    /\ nth_error ps 0 = Some pe
    /\ TaxResult.grossIncome tr = YearlyFinancial.totalGrossIncome f
    /\ YearlyFinancial.totalNetIncome f
       == TaxResult.netIncome tr
          + IncomeSettings.healthcareBenefitMonthly (FinancialData.incomeSettings highPensionData)
            * 12
    /\ YearlyPension.employeeContributions pe = TaxResult.pensionContributions tr
    /\ TaxResult.pensionContributions tr
       = IncomeSettings.baseSalary (FinancialData.incomeSettings highPensionData)
         * Qpower (1 + IncomeSettings.salaryGrowthRate
                         (FinancialData.incomeSettings highPensionData)) (Z.of_nat 0)
         * IncomeSettings.pensionPercentage (FinancialData.incomeSettings highPensionData).
Proof.
  split; [cbn; lia |].
  apply (recalculate_year_consistency highPensionData 0). cbn; lia.
Defined.

Lemma totalTax_mono_2025 (g1 g2 p pensionPercentage : Q) (has30PercentRuling : bool) (year : Z) :
  0 <= p -> p <= g1 -> g1 <= g2 ->
  TaxResult.totalTax
    (calculateTax g1 pensionPercentage has30PercentRuling year NETHERLANDS_TAX_CONFIG_2025 (Some p))
  <= TaxResult.totalTax
    (calculateTax g2 pensionPercentage has30PercentRuling year NETHERLANDS_TAX_CONFIG_2025 (Some p)).
Proof.
  intros Hp Hpg Hg. rewrite !totalTax_creditedTax.
  apply Qplus_le_compat; [| apply Qle_refl].
  destruct has30PercentRuling.
  - destruct (Qlt_le_dec 22357 g1) as [Hhigh | Hlow].
    + apply Math_max_mono, creditedTax_mono; auto.
    + pose proof (creditedTax_ruling_low p g1 Hp Hpg Hlow) as Hc.
      pose proof (Math_max_l p (creditedTax true p g2)).
      unfold Math_max at 1; qcase; lra.
  - apply Math_max_mono, creditedTax_mono; auto.
Qed.

Lemma rsuVestingYearAt_gross_nonneg grants startYear salaryByYear sharePriceGrowthRate
    currentStockPrice pensionPercentage has30PercentRuling a b (i : nat) :
  0 <= currentStockPrice -> 0 <= 1 + sharePriceGrowthRate ->
  0 <= RSUVestingYear.grossRSUValue
         (rsuVestingYearAt grants startYear salaryByYear sharePriceGrowthRate currentStockPrice
            pensionPercentage has30PercentRuling a b i).
Proof.
  intros Hcp Hg.
  destruct (vestingTotals grants (startYear + Z.of_nat i)) as [t w] eqn:Hv.
  destruct (rsuVestingYearAt_fields grants startYear salaryByYear sharePriceGrowthRate
              currentStockPrice pensionPercentage has30PercentRuling a b i t w Hv)
    as (_ & _ & _ & Hp & Hgr & _).
  pose proof (vestingTotals_fst_nonneg grants (startYear + Z.of_nat i) (0, 0) (Qle_refl 0)) as Ht.
  rewrite <- vestingTotals_fold, Hv in Ht. cbn in Ht.
  rewrite Hgr, Hp. apply Qmult_le_0_compat; [exact Ht |].
  apply Qmult_le_0_compat; [exact Hcp | apply Qpower_0_le; exact Hg].
Qed.

(** X25. In [recalculate], the tax the RSU of a year costs (total tax with the RSU
    income minus total tax without it) is never negative, and the net RSU
    value never exceeds the gross value, provided salaries, the stock price
    and its growth factor are nonnegative and the pension share of base salary
    is between 0 and the gross-to-base factor [1 + holiday + bonus]. *)
Theorem recalculate_rsu_taxPaid_nonneg (data : FinancialData.t) (i : nat) (v : RSUVestingYear.t) :
  let inc := FinancialData.incomeSettings data in
  let inv := FinancialData.investmentSettings data in
  nth_error (FinancialProjections.rsuVestingByYear (recalculate data)) i = Some v ->
  0 <= IncomeSettings.baseSalary inc -> 0 <= 1 + IncomeSettings.salaryGrowthRate inc ->
  0 <= IncomeSettings.pensionPercentage inc ->
  IncomeSettings.pensionPercentage inc
  <= 1 + IncomeSettings.holidayAllowancePercentage inc + IncomeSettings.bonusPercentage inc ->
  0 <= InvestmentSettings.currentStockPrice inv -> 0 <= 1 + InvestmentSettings.sharePriceGrowthRate inv ->
  0 <= RSUVestingYear.taxPaid v
  /\ RSUVestingYear.netRSUValue v <= RSUVestingYear.grossRSUValue v.
Proof.
  cbv zeta. intros Hv Hb Hg Hpp0 Hpp1 Hcp Hspg.
  destruct (recalculate_fields data) as (Ht & Hr & _ & _ & _). cbv zeta in Ht, Hr.
  set (inc := FinancialData.incomeSettings data) in *.
  set (inv := FinancialData.investmentSettings data) in *.
  set (plan := FinancialData.planningSettings data) in *.
  set (startYear := PlanningSettings.startYear plan) in *.
  set (n := PlanningSettings.projectionYears plan) in *.
  set (sal := calculateSalaryByYear (IncomeSettings.baseSalary inc)
                (IncomeSettings.salaryGrowthRate inc) startYear n) in *.
  set (rv0 := calculateRSUVestingByYear (FinancialData.rsuGrants data) startYear n sal
                (InvestmentSettings.sharePriceGrowthRate inv)
                (InvestmentSettings.currentStockPrice inv)
                (IncomeSettings.pensionPercentage inc)
                (IncomeSettings.has30PercentRuling inc) None None) in *.
  set (taxes := map (recalculateTaxesAt inc startYear sal rv0) (seq 0 n)) in *.
  rewrite Hr in Hv. unfold calculateRSUVestingByYear in Hv.
  rewrite nth_error_map, nth_error_seq in Hv.
  destruct (Nat.ltb_spec i n) as [Hi | Hi]; [| discriminate]. injection Hv as <-.
  assert (Htax : nth_error taxes i = Some (recalculateTaxesAt inc startYear sal rv0 i)).
  { unfold taxes. rewrite nth_error_map, nth_error_seq.
    destruct (Nat.ltb_spec i n); [reflexivity | lia]. }
  assert (Htr : nth_error (map fst taxes) i = Some (fst (recalculateTaxesAt inc startYear sal rv0 i)))
    by (rewrite nth_error_map, Htax; reflexivity).
  assert (Htrw : nth_error (map snd taxes) i
                 = Some (snd (recalculateTaxesAt inc startYear sal rv0 i)))
    by (rewrite nth_error_map, Htax; reflexivity).
  destruct (rsuVestingYearAt_exact (FinancialData.rsuGrants data) startYear sal
              (InvestmentSettings.sharePriceGrowthRate inv)
              (InvestmentSettings.currentStockPrice inv) (IncomeSettings.pensionPercentage inc)
              (IncomeSettings.has30PercentRuling inc) (map fst taxes) (map snd taxes) i
              _ _ Htr Htrw) as [Hpaid Hnet].
  assert (Hpaid0 : 0 <= RSUVestingYear.taxPaid
                     (rsuVestingYearAt (FinancialData.rsuGrants data) startYear sal
                        (InvestmentSettings.sharePriceGrowthRate inv)
                        (InvestmentSettings.currentStockPrice inv)
                        (IncomeSettings.pensionPercentage inc)
                        (IncomeSettings.has30PercentRuling inc)
                        (Some (map fst taxes)) (Some (map snd taxes)) i)).
  { rewrite Hpaid. unfold recalculateTaxesAt, field_or0.
    assert (Hrv0 : nth_error rv0 i = Some (rsuVestingYearAt (FinancialData.rsuGrants data)
                     startYear sal (InvestmentSettings.sharePriceGrowthRate inv)
                     (InvestmentSettings.currentStockPrice inv)
                     (IncomeSettings.pensionPercentage inc)
                     (IncomeSettings.has30PercentRuling inc) None None i))
      by (apply nth_error_calculateRSUVestingByYear; exact Hi).
    rewrite Hrv0. cbv zeta.
    cbn [fst snd].
    assert (Hsal : 0 <= map_get_or0 sal (startYear + Z.of_nat i)).
    { unfold sal, n, startYear. rewrite salary_at by exact Hi.
      apply Qmult_le_0_compat; [exact Hb | apply Qpower_0_le; exact Hg]. }
    pose proof (rsuVestingYearAt_gross_nonneg (FinancialData.rsuGrants data) startYear sal
                  (InvestmentSettings.sharePriceGrowthRate inv)
                  (InvestmentSettings.currentStockPrice inv)
                  (IncomeSettings.pensionPercentage inc)
                  (IncomeSettings.has30PercentRuling inc) None None i Hcp Hspg) as Hgr.
    set (s := map_get_or0 sal (startYear + Z.of_nat i)) in *.
    match goal with |- 0 <= TaxResult.totalTax (calculateTax (?sI + ?rI) _ _ _ _ _) - _ =>
      pose proof (totalTax_mono_2025 sI (sI + rI) (s * IncomeSettings.pensionPercentage inc)
                    (IncomeSettings.pensionPercentage inc) (IncomeSettings.has30PercentRuling inc)
                    (startYear + Z.of_nat i)%Z ltac:(nra) ltac:(nra) ltac:(lra)) as Hm end.
    lra. }
  split; [exact Hpaid0 | rewrite Hnet; lra].
Qed.

Lemma recalculate_rsu_taxPaid_nonneg_witness :
  exists v,
    (nth_error (FinancialProjections.rsuVestingByYear (recalculate sampleData)) 0 = Some v
     /\ 0 <= 80000 /\ 0 <= 1 + 0.03 /\ 0 <= 0.0338 /\ 0.0338 <= 1 + 0.08 + 0.10
     /\ 0 <= 100 /\ 0 <= 1 + 0.05)
    /\ 0 <= RSUVestingYear.taxPaid v.
Proof.
  destruct (nth_error (FinancialProjections.rsuVestingByYear (recalculate sampleData)) 0)
    as [v |] eqn:Hv; [| vm_compute in Hv; discriminate].
  exists v. split; [repeat split; try reflexivity; lra |].
  apply (recalculate_rsu_taxPaid_nonneg sampleData 0 v Hv); cbn; lra.
Defined.
